(** * fluxclient.usb.usb2: framed, multiplexed USB transport

    A shallow embedding of [fluxclient/usb/usb2.py]: the frame codec
    ([HEAD_PACKER], [_unpack_buffer], the three senders), the low level
    transport wrappers ([_send], [_recv]), the handshake loop, the
    steady-state dispatch loop and the channel control protocol.

    Python integers are [Z], byte strings are [list byte], dictionaries
    (decoded objects and the channel map alike) are association lists keyed
    by values, semaphores are counters, and the exceptions a call may raise
    are the [Err] results of a small error monad over the session state. *)

From Stdlib Require Import String Ascii ZArith List Lia Bool FinFun.
From Stdlib Require Import Strings.Byte.

Set Warnings "-register-all".

Import ListNotations.
Local Open Scope Z_scope.

(** ** Bytes *)

Abbreviation bytes := (list byte).

Definition Z_of_byte (b : byte) : Z := Z.of_N (Byte.to_N b).

Definition byte_of_Z (z : Z) : option byte :=
  if 0 <=? z then Byte.of_N (Z.to_N z) else None.

(** [b[i:j]] for non-negative [i] and [j]. *)
Definition slice (b : bytes) (i j : Z) : bytes :=
  firstn (Z.to_nat (j - i)) (skipn (Z.to_nat i) b).

(** [b[i:]] for non-negative [i]. *)
Definition slice_from (b : bytes) (i : Z) : bytes := skipn (Z.to_nat i) b.

(** [b[i]] for [0 <= i < len(b)], as the integer Python yields. *)
Definition byte_at (b : bytes) (i : Z) : Z :=
  Z_of_byte (nth (Z.to_nat i) b x00).

Definition len {A} (l : list A) : Z := Z.of_nat (length l).

(** ** HEAD_PACKER = Struct("<HB") *)

(** [HEAD_PACKER.pack(size, channel)]: [None] stands for [struct.error],
    raised when [size] is not a uint16 or [channel] is not a uint8. *)
Definition HEAD_PACKER_pack (size channel : Z) : option bytes :=
  match byte_of_Z (size mod 256), byte_of_Z (size / 256), byte_of_Z channel with
  | Some lo, Some hi, Some c => Some [lo; hi; c]
  | _, _, _ => None
  end.

(** [HEAD_PACKER.unpack(b)]: [None] stands for [struct.error], raised when
    [b] is not exactly three bytes long. *)
Definition HEAD_PACKER_unpack (b : bytes) : option (Z * Z) :=
  match b with
  | [lo; hi; c] => Some (Z_of_byte lo + 256 * Z_of_byte hi, Z_of_byte c)
  | _ => None
  end.

(** ** _unpack_buffer *)

(** What the method returns: the triple [(channel_idx, buf, fin)] with its
    two sentinels. *)
Inductive unpacked : Type :=
| NeedMoreData                                   (* (None, None, None) *)
| ZeroMarker                                     (* (-1, None, None) *)
| Frame (channel_idx : Z) (buf : bytes) (fin : Z).

(** [_unpack_buffer] on the receive buffer: the returned triple and the new
    value of [self._buf]. *)
Definition unpack_buffer (_buf : bytes) : unpacked * bytes :=
  let l := len _buf in
  if l >? 3 then
    match HEAD_PACKER_unpack (firstn 3 _buf) with
    | Some (size, channel_idx) =>
        if size =? 0 then (ZeroMarker, slice_from _buf 2)
        else if l >=? size then
          let fin := byte_at _buf (size - 1) in
          let buf := slice _buf 3 (size - 1) in
          (Frame channel_idx buf fin, slice_from _buf size)
        else (NeedMoreData, _buf)
    | None => (NeedMoreData, _buf) (* struct.error; the slice has 3 bytes *)
    end
  else (NeedMoreData, _buf).

(** The byte string a sender hands to [_send]:
    [HEAD_PACKER.pack(len(payload) + 4, channel) + payload + fin]. *)
Definition pack_frame (channel : Z) (payload : bytes) (fin : byte) : option bytes :=
  match HEAD_PACKER_pack (len payload + 4) channel with
  | Some head => Some (head ++ payload ++ [fin])
  | None => None
  end.

(** ** Structured values (what msgpack encodes and decodes) *)

Inductive value : Type :=
| VNone
| VBool (b : bool)
| VInt (z : Z)
| VStr (s : string)
| VBytes (b : bytes)
| VList (l : list value)          (* an array: a list, or a tuple *)
| VMap (m : list (value * value)).

Fixpoint bytes_eqb (a b : bytes) : bool :=
  match a, b with
  | [], [] => true
  | x :: xs, y :: ys => Byte.eqb x y && bytes_eqb xs ys
  | _, _ => false
  end.

(** [a == b], structurally (dictionaries compare in key order). *)
Fixpoint value_eqb (a b : value) {struct a} : bool :=
  match a, b with
  | VNone, VNone => true
  | VBool x, VBool y => Bool.eqb x y
  | VInt x, VInt y => x =? y
  | VStr x, VStr y => String.eqb x y
  | VBytes x, VBytes y => bytes_eqb x y
  | VList l, VList l' =>
      (fix go (l l' : list value) : bool :=
         match l, l' with
         | [], [] => true
         | x :: xs, y :: ys => value_eqb x y && go xs ys
         | _, _ => false
         end) l l'
  | VMap m, VMap m' =>
      (fix go (m m' : list (value * value)) : bool :=
         match m, m' with
         | [], [] => true
         | (k, v) :: xs, (k', v') :: ys =>
             value_eqb k k' && value_eqb v v' && go xs ys
         | _, _ => false
         end) m m'
  | _, _ => false
  end.

(** ** Python dictionaries, as association lists with unique keys *)

Definition dict (V : Type) : Type := list (value * V).

(** [d.get(k)]: [None] when the key is absent. *)
Fixpoint dict_get {V} (d : dict V) (k : value) : option V :=
  match d with
  | [] => None
  | (k', v) :: d' => if value_eqb k' k then Some v else dict_get d' k
  end.

(** [d.pop(k)]: the dictionary without the key. *)
Fixpoint dict_remove {V} (d : dict V) (k : value) : dict V :=
  match d with
  | [] => []
  | (k', v) :: d' => if value_eqb k' k then d' else (k', v) :: dict_remove d' k
  end.

(** [d[k] = v]: replaces the binding of an existing key in place. *)
Fixpoint dict_set {V} (d : dict V) (k : value) (v : V) : dict V :=
  match d with
  | [] => [(k, v)]
  | (k', v') :: d' =>
      if value_eqb k' k then (k', v) :: d' else (k', v') :: dict_set d' k v
  end.

(** [obj.get(k)] on a decoded object: a missing key gives [None]. *)
Definition value_get (m : dict value) (k : value) : value :=
  match dict_get m k with
  | Some v => v
  | None => VNone
  end.

(** ** Exceptions *)

Inductive exn : Type :=
| FluxUSBError (args : list value) (symbol : list value)
| RuntimeError (msg : string)
| KeyError
| AttributeError
| TypeError
| StructError
| UnpackError.

(** [kw.get("symbol", ("UNKNOWN_ERROR", ))] in [FluxUSBError.__init__]. *)
Definition default_symbol : list value := [VStr "UNKNOWN_ERROR"].

(** [FluxUSBError(msg)] *)
Definition FluxUSBError_msg (msg : string) : exn :=
  FluxUSBError [VStr msg] default_symbol.

(** [usb.core.USBError], as far as the module looks at it. *)
Record USBError : Type := {
  usb_args : list value;
  usb_errno : option Z
}.

Inductive usb_result (A : Type) : Type :=
| usb_ok (a : A)
| usb_raise (e : USBError).
Arguments usb_ok {A} a.
Arguments usb_raise {A} e.

Inductive result (A : Type) : Type :=
| Ok (a : A)
| Err (e : exn).
Arguments Ok {A} a.
Arguments Err {A} e.

(** ** Channel *)

Record Channel : Type := {
  index : value;
  obj_semaphore : nat;
  ack_semaphore : nat;
  objq : list value;
  opened : bool;
  (** the chunks handed to the registered sink, [None] without a sink *)
  binary_stream : option (list bytes)
}.

(** [Channel(usbprotocol, index)] *)
Definition new_channel (idx : value) : Channel :=
  {| index := idx; obj_semaphore := 0; ack_semaphore := 0; objq := [];
     opened := true; binary_stream := None |}.

Definition on_object (c : Channel) (obj : value) : Channel :=
  {| index := index c; obj_semaphore := S (obj_semaphore c);
     ack_semaphore := ack_semaphore c; objq := objq c ++ [obj];
     opened := opened c; binary_stream := binary_stream c |}.

Definition on_binary (c : Channel) (buf : bytes) : Channel :=
  match binary_stream c with
  | Some sink =>
      {| index := index c; obj_semaphore := obj_semaphore c;
         ack_semaphore := ack_semaphore c; objq := objq c;
         opened := opened c; binary_stream := Some (sink ++ [buf]) |}
  | None => c (* logged: no output direction *)
  end.

Definition on_binary_ack (c : Channel) : Channel :=
  {| index := index c; obj_semaphore := obj_semaphore c;
     ack_semaphore := S (ack_semaphore c); objq := objq c;
     opened := opened c; binary_stream := binary_stream c |}.

(** ** USBProtocol: the session object and the endpoints it owns *)

Record USBProtocol : Type := {
  running : bool;
  session : value;
  _buf : bytes;
  endpoint_profile : option (dict value);
  channels : dict Channel;
  chl_semaphore : nat;
  (** what the coming [_rx.read] calls return, oldest first; once the list
      is used up every read times out *)
  rx_script : list (usb_result bytes);
  (** what the coming [_tx.write] calls return, oldest first; once the
      list is used up every write succeeds *)
  tx_script : list (usb_result unit);
  (** the byte strings the OUT endpoint has accepted, oldest first *)
  tx_log : list bytes
}.

Definition set_running (v : bool) (s : USBProtocol) : USBProtocol :=
  {| running := v; session := session s; _buf := _buf s;
     endpoint_profile := endpoint_profile s; channels := channels s;
     chl_semaphore := chl_semaphore s; rx_script := rx_script s;
     tx_script := tx_script s; tx_log := tx_log s |}.

Definition set_session (v : value) (s : USBProtocol) : USBProtocol :=
  {| running := running s; session := v; _buf := _buf s;
     endpoint_profile := endpoint_profile s; channels := channels s;
     chl_semaphore := chl_semaphore s; rx_script := rx_script s;
     tx_script := tx_script s; tx_log := tx_log s |}.

Definition set_buf (v : bytes) (s : USBProtocol) : USBProtocol :=
  {| running := running s; session := session s; _buf := v;
     endpoint_profile := endpoint_profile s; channels := channels s;
     chl_semaphore := chl_semaphore s; rx_script := rx_script s;
     tx_script := tx_script s; tx_log := tx_log s |}.

Definition set_endpoint_profile (v : option (dict value)) (s : USBProtocol)
  : USBProtocol :=
  {| running := running s; session := session s; _buf := _buf s;
     endpoint_profile := v; channels := channels s;
     chl_semaphore := chl_semaphore s; rx_script := rx_script s;
     tx_script := tx_script s; tx_log := tx_log s |}.

Definition set_channels (v : dict Channel) (s : USBProtocol) : USBProtocol :=
  {| running := running s; session := session s; _buf := _buf s;
     endpoint_profile := endpoint_profile s; channels := v;
     chl_semaphore := chl_semaphore s; rx_script := rx_script s;
     tx_script := tx_script s; tx_log := tx_log s |}.

Definition set_chl_semaphore (v : nat) (s : USBProtocol) : USBProtocol :=
  {| running := running s; session := session s; _buf := _buf s;
     endpoint_profile := endpoint_profile s; channels := channels s;
     chl_semaphore := v; rx_script := rx_script s;
     tx_script := tx_script s; tx_log := tx_log s |}.

Definition set_rx_script (v : list (usb_result bytes)) (s : USBProtocol)
  : USBProtocol :=
  {| running := running s; session := session s; _buf := _buf s;
     endpoint_profile := endpoint_profile s; channels := channels s;
     chl_semaphore := chl_semaphore s; rx_script := v;
     tx_script := tx_script s; tx_log := tx_log s |}.

Definition set_tx (script : list (usb_result unit)) (log : list bytes)
  (s : USBProtocol) : USBProtocol :=
  {| running := running s; session := session s; _buf := _buf s;
     endpoint_profile := endpoint_profile s; channels := channels s;
     chl_semaphore := chl_semaphore s; rx_script := rx_script s;
     tx_script := script; tx_log := log |}.

(** ** Calls that may raise, over the session state

    A raise keeps the mutations made before it. *)

Definition M (A : Type) : Type := USBProtocol -> result A * USBProtocol.

Definition ret {A} (a : A) : M A := fun s => (Ok a, s).

Definition raise {A} (e : exn) : M A := fun s => (Err e, s).

Definition bind {A B} (m : M A) (k : A -> M B) : M B :=
  fun s =>
    match m s with
    | (Ok a, s') => k a s'
    | (Err e, s') => (Err e, s')
    end.

Definition modify (f : USBProtocol -> USBProtocol) : M unit :=
  fun s => (Ok tt, f s).

Notation "x <~ m ;; k" := (bind m (fun x => k))
  (at level 61, m at next level, right associativity).
Notation "m ;;; k" := (bind m (fun _ => k))
  (at level 61, right associativity).

(** [b"..."] *)
Definition bytes_lit (s : string) : bytes := list_byte_of_string s.

(** ["%02x" % n] for a byte [n]. *)
Definition hex_digit (d : Z) : ascii :=
  nth (Z.to_nat d) (list_ascii_of_string "0123456789abcdef") "0"%char.

Definition hex02 (n : Z) : string :=
  String (hex_digit (n / 16)) (String (hex_digit (n mod 16)) EmptyString).

(** Keys a dictionary accepts: a decoded array or map is unhashable. *)
Definition hashable (v : value) : bool :=
  match v with
  | VList _ | VMap _ => false
  | _ => true
  end.

(** [range(n)] *)
Definition range (n : Z) : list Z := map Z.of_nat (seq 0 (Z.to_nat n)).

(** [Semaphore.acquire(timeout=...)]: takes a unit when one is there,
    and gives [False] when the wait expires without one. *)
Definition sem_acquire (n : nat) : bool * nat :=
  match n with
  | O => (false, O)
  | S n' => (true, n')
  end.

(** ** What a channel method returns or raises *)

Inductive channel_exn : Type :=
| SystemError (msg : string)
| IndexError
| SessionError (e : exn).

Inductive channel_result (A : Type) : Type :=
| Returned (a : A)
| Failed (e : channel_exn).
Arguments Returned {A} a.
Arguments Failed {A} e.

Definition set_opened (v : bool) (c : Channel) : Channel :=
  {| index := index c; obj_semaphore := obj_semaphore c;
     ack_semaphore := ack_semaphore c; objq := objq c;
     opened := v; binary_stream := binary_stream c |}.

Definition set_objq (sem : nat) (q : list value) (c : Channel) : Channel :=
  {| index := index c; obj_semaphore := sem;
     ack_semaphore := ack_semaphore c; objq := q;
     opened := opened c; binary_stream := binary_stream c |}.

Definition set_ack_semaphore (v : nat) (c : Channel) : Channel :=
  {| index := index c; obj_semaphore := obj_semaphore c;
     ack_semaphore := v; objq := objq c;
     opened := opened c; binary_stream := binary_stream c |}.

(** ** Concrete surroundings for the examples *)

(** [errno.errorcode] as far as the examples look into it (Linux). *)
Definition linux_errorcode (n : Z) : option string :=
  if n =? 5 then Some "EIO"%string
  else if n =? 110 then Some "ETIMEDOUT"%string
  else None.

Definition msgpack_tag (base n : Z) : byte :=
  match byte_of_Z (base + n) with
  | Some c => c
  | None => xc0
  end.

(** msgpack's encoding of small values: nil, the booleans, integers of one
    byte and the fix formats of strings, arrays and maps, bin 8 for bytes.
    An integer outside 0..255 is encoded as nil; the examples have none. *)
Fixpoint packb_small (v : value) : bytes :=
  match v with
  | VNone => [xc0]
  | VBool false => [xc2]
  | VBool true => [xc3]
  | VInt z =>
      match byte_of_Z z with
      | Some c => if z <? 128 then [c] else [xcc; c]
      | None => [xc0]
      end
  | VStr s => msgpack_tag 0xa0 (len (list_byte_of_string s)) :: list_byte_of_string s
  | VBytes x => xc4 :: msgpack_tag 0 (len x) :: x
  | VList l => msgpack_tag 0x90 (len l) :: flat_map packb_small l
  | VMap m =>
      msgpack_tag 0x80 (len m) ::
      flat_map (fun kv : value * value =>
                  let (k, x) := kv in packb_small k ++ packb_small x) m
  end.

(** A decoder that rejects every input. *)
Definition unpackb_rejects (_ : bytes) : option value := None.

(** A session right after construction, before the handshake, with the
    scripts of its two endpoints. *)
Definition fresh (rx : list (usb_result bytes)) (tx : list (usb_result unit))
  : USBProtocol :=
  {| running := false; session := VNone; _buf := [];
     endpoint_profile := None; channels := []; chl_semaphore := 0;
     rx_script := rx; tx_script := tx; tx_log := [] |}.

(** A decoder given by a finite table, for the examples. *)
Definition unpackb_table (table : list (bytes * value)) (buf : bytes)
  : option value :=
  match find (fun e => bytes_eqb (fst e) buf) table with
  | Some e => Some (snd e)
  | None => None
  end.

(** A frame as it stands on the wire, for the examples. *)
Definition example_frame (channel : Z) (payload : bytes) (fin : byte) : bytes :=
  match pack_frame channel payload fin with
  | Some f => f
  | None => []
  end.

(** The offer [{session: "S1", profile_key: "v"}] and a confirmation of a
    session. *)
Definition example_offer : value :=
  VMap [(VStr "session", VStr "S1"); (VStr "profile_key", VStr "v")].

Definition example_confirm (sess : string) : value :=
  VMap [(VStr "session", VStr sess)].

(** A control response [{channel: i, status: ..., action: ...}]. *)
Definition example_response (i : Z) (status action : string) : dict value :=
  [(VBytes (bytes_lit "channel"), VInt i);
   (VBytes (bytes_lit "status"), VBytes (bytes_lit status));
   (VBytes (bytes_lit "action"), VBytes (bytes_lit action))].

(** A decoder that knows the objects of the examples. *)
Definition example_unpackb : bytes -> option value :=
  unpackb_table
    (map (fun v => (packb_small v, v))
       [example_offer; example_confirm "S1"; example_confirm "S2";
        VMap (example_response 0 "ok" "open");
        VMap (example_response 0 "ok" "close");
        VStr "a"; VStr "b"]).

Section Protocol.

(** [errno.ETIMEDOUT] and [errno.errorcode], which depend on the platform. *)
Variable ETIMEDOUT : Z.
Variable errorcode : Z -> option string.

(** [msgpack.packb(obj)]. *)
Variable packb : value -> bytes.

(** [msgpack.unpackb(buf)]; [None] when it raises. *)
Variable unpackb : bytes -> option value.

(** [msgpack.unpackb(buf, use_list=False, encoding="utf8",
    unicode_errors="ignore")]; [None] when it raises. *)
Variable unpackb_utf8 : bytes -> option value.

(** [fluxclient.__version__] *)
Variable __version__ : string.

(** *** The endpoints *)

(** [self._tx.write(buf)] *)
Definition tx_write (buf : bytes) (s : USBProtocol)
  : usb_result unit * USBProtocol :=
  match tx_script s with
  | [] => (usb_ok tt, set_tx [] (tx_log s ++ [buf]) s)
  | usb_ok _ :: rest => (usb_ok tt, set_tx rest (tx_log s ++ [buf]) s)
  | usb_raise e :: rest => (usb_raise e, set_tx rest (tx_log s) s)
  end.

(** [self._rx.read(length, timeout).tobytes()] *)
Definition rx_read (length timeout_ms : Z) (s : USBProtocol)
  : usb_result bytes * USBProtocol :=
  match rx_script s with
  | [] => (usb_raise {| usb_args := []; usb_errno := Some ETIMEDOUT |}, s)
  | r :: rest => (r, set_rx_script rest s)
  end.

(** [e.errno == ETIMEDOUT] *)
Definition is_timeout (e : USBError) : bool :=
  match usb_errno e with
  | Some n => n =? ETIMEDOUT
  | None => false
  end.

(** [errorcode.get(e.errno, e.errno)] *)
Definition errorcode_get (errno : option Z) : value :=
  match errno with
  | Some n =>
      match errorcode n with
      | Some name => VStr name
      | None => VInt n
      end
  | None => VNone
  end.

(** *** Low level send and receive *)

Definition _send (buf : bytes) : M unit :=
  fun s =>
    match tx_write buf s with
    | (usb_ok _, s') => (Ok tt, s')
    | (usb_raise e, s') =>
        if is_timeout e then
          (Err (FluxUSBError (usb_args e) [VStr "TIMEOUT"]), s')
        else
          (Err (FluxUSBError (usb_args e)
                  [VStr "UNKNOWN_ERROR"; errorcode_get (usb_errno e)]), s')
    end.

Definition _send_binary_ack (channel_idx : Z) : M unit :=
  match HEAD_PACKER_pack 4 channel_idx with
  | Some head => _send (head ++ [x80])
  | None => raise StructError
  end.

Definition _recv (length timeout_ms : Z) : M bytes :=
  fun s =>
    match rx_read length timeout_ms s with
    | (usb_ok data, s') => (Ok data, s')
    | (usb_raise e, s') =>
        if is_timeout e then (Ok [], s')
        else (Err (FluxUSBError (usb_args e) default_symbol), s')
    end.

(** The [timeout] argument is not used: the read always waits 0.05 s. *)
Definition _feed_buffer : M unit :=
  data <~ _recv 1024 50 ;;
  modify (fun s => set_buf (_buf s ++ data) s).

Definition _unpack_buffer : M unpacked :=
  fun s => let (d, rest) := unpack_buffer (_buf s) in (Ok d, set_buf rest s).

(** *** Senders *)

Definition send_object (channel : Z) (obj : value) : M unit :=
  let payload := packb obj in
  match pack_frame channel payload xb0 with
  | Some buf => _send buf
  | None => raise StructError
  end.

Definition send_binary (channel : Z) (buf : bytes) : M unit :=
  match pack_frame channel buf xbf with
  | Some buf' => _send buf'
  | None => raise StructError
  end.

(** *** Handshake *)

Definition _handle_handshake (buf : bytes) : M unit :=
  match unpackb_utf8 buf with
  | None => raise UnpackError
  | Some (VMap data) =>
      let session' :=
        match dict_get data (VStr "session") with
        | Some v => v
        | None => VStr "?"
        end in
      let data' := dict_remove data (VStr "session") in
      modify (set_endpoint_profile (Some data')) ;;;
      modify (set_session session') ;;;
      send_object 0xfe
        (VMap [(VStr "session", session');
               (VStr "client", VStr ("fluxclient-" ++ __version__))])
  | Some _ => raise AttributeError
  end.

Definition _final_handshake (buf : bytes) : M bool :=
  match unpackb_utf8 buf with
  | None => raise UnpackError
  | Some (VMap data) =>
      match dict_get data (VStr "session") with
      | None => raise KeyError
      | Some v =>
          fun s =>
            if value_eqb v (session s) then (Ok true, s)
            else (Ok false, set_session VNone s)
      end
  | Some _ => raise TypeError
  end.

(** The inner [while True] loop of [do_handshake]: extract until nothing
    more comes out, keeping the last item extracted. *)
Fixpoint drain (fuel : nat) (data : option unpacked) (s : USBProtocol)
  : option (option unpacked * USBProtocol) :=
  match fuel with
  | O => None
  | S fuel' =>
      match _unpack_buffer s with
      | (Ok NeedMoreData, s') => Some (data, s')
      | (Ok d, s') => drain fuel' (Some d) s'
      | (Err _, _) => None
      end
  end.

(** The [while ttl] loop of [do_handshake]; [None] when [fuel] iterations
    did not finish it. *)
Fixpoint do_handshake_loop (fuel : nat) (ttl : Z) (s : USBProtocol)
  : option (result bool * USBProtocol) :=
  match fuel with
  | O => None
  | S fuel' =>
      if ttl =? 0 then Some (Err (FluxUSBError_msg "Handshake failed."), s)
      else
        match _feed_buffer s with
        | (Err e, s1) => Some (Err e, s1)
        | (Ok _, s1) =>
            match drain (S (length (_buf s1))) None s1 with
            | None => None
            | Some (data, s2) =>
                (* ttl -= 1; self.send_object(0xfc, None) *)
                let retry s :=
                  match send_object 0xfc VNone s with
                  | (Err e, s') => Some (Err e, s')
                  | (Ok _, s') => do_handshake_loop fuel' (ttl - 1) s'
                  end in
                match data with
                | Some (Frame channel_idx buf fin) =>
                    if (channel_idx =? 0xff) && (fin =? 0xf0) then
                      match _handle_handshake buf s2 with
                      | (Err e, s3) => Some (Err e, s3)
                      | (Ok _, s3) => do_handshake_loop fuel' ttl s3
                      end
                    else if (channel_idx =? 0xfd) && (fin =? 0xf0) then
                      if negb (value_eqb (session s2) VNone) then
                        match _final_handshake buf s2 with
                        | (Err e, s3) => Some (Err e, s3)
                        | (Ok true, s3) => Some (Ok true, s3)
                        | (Ok false, s3) => retry s3
                        end
                      else retry s2
                    else do_handshake_loop fuel' ttl s2
                | Some ZeroMarker => do_handshake_loop fuel' ttl s2
                | Some NeedMoreData | None => retry s2
                end
            end
        end
  end.

Definition do_handshake (fuel : nat) : USBProtocol -> option (result bool * USBProtocol) :=
  do_handshake_loop fuel 5.

(** *** Channel control protocol *)

Definition _on_channel_ctrl_response (obj : value) : M unit :=
  match obj with
  | VMap m =>
      let index := value_get m (VBytes (bytes_lit "channel")) in
      let status := value_get m (VBytes (bytes_lit "status")) in
      let action := value_get m (VBytes (bytes_lit "action")) in
      if value_eqb action (VBytes (bytes_lit "open")) then
        if value_eqb status (VBytes (bytes_lit "ok")) then
          if hashable index then
            modify (fun s =>
                      set_channels
                        (dict_set (channels s) index (new_channel index)) s) ;;;
            modify (fun s => set_chl_semaphore (S (chl_semaphore s)) s)
          else raise TypeError
        else ret tt (* logged: open failed *)
      else if value_eqb action (VBytes (bytes_lit "close")) then
        if value_eqb status (VBytes (bytes_lit "ok")) then
          if hashable index then
            fun s =>
              match dict_get (channels s) index with
              | Some _ =>
                  (Ok tt, set_channels (dict_remove (channels s) index) s)
              | None => (Err KeyError, s)
              end
          else raise TypeError
        else ret tt (* logged: close failed *)
      else ret tt (* logged: unknown action *)
  | _ => raise AttributeError
  end.

Definition _close_channel (channel : Channel) : M unit :=
  send_object 0xf0
    (VMap [(VStr "channel", index channel); (VStr "action", VStr "close")]).

(** The [for] loop of [open_channel]: the last [i] of
    [range(len(self.channels) + 1)] whose lookup gives [None]. *)
Definition open_channel_idx (chs : dict Channel) : option Z :=
  fold_left
    (fun idx i =>
       match dict_get chs (VInt i) with
       | None => Some i
       | Some _ => idx
       end)
    (range (len chs + 1)) None.

Definition idx_value (idx : option Z) : value :=
  match idx with
  | Some i => VInt i
  | None => VNone
  end.

(** The object [open_channel] sends on the control-request channel. *)
Definition open_request (idx : option Z) (channel_type : string) : value :=
  VMap [(VStr "channel", idx_value idx); (VStr "action", VStr "open");
        (VStr "type", VStr channel_type)].

(** [open_channel]. The caller blocks in [chl_semaphore.acquire] for up to
    three seconds while the receive loop runs in its own thread:
    [receiver] is what that thread does to the session in the meantime. *)
Definition open_channel (channel_type : string)
  (receiver : USBProtocol -> USBProtocol) : M Channel :=
  fun s =>
    let idx := open_channel_idx (channels s) in
    match send_object 0xf0 (open_request idx channel_type) s with
    | (Err e, s1) => (Err e, s1)
    | (Ok _, s1) =>
        let s2 := receiver s1 in
        let s3 := set_chl_semaphore (snd (sem_acquire (chl_semaphore s2))) s2 in
        match dict_get (channels s3) (idx_value idx) with
        | Some channel => (Ok channel, s3)
        | None => (Err (RuntimeError "Channel creation failed"), s3)
        end
    end.

(** *** Steady-state receive loop *)

(** The channel object is shared with the map: a callback on it shows in
    [self.channels]. *)
Definition update_channel (channel_idx : Z) (c : Channel) : M unit :=
  modify (fun s => set_channels (dict_set (channels s) (VInt channel_idx) c) s).

Definition run_once : M unit :=
  _feed_buffer ;;;
  d <~ _unpack_buffer ;;
  match d with
  | NeedMoreData => ret tt
  | ZeroMarker => raise (FluxUSBError_msg "USB protocol broken")
  | Frame channel_idx buf fin =>
      if channel_idx <? 0x80 then
        fun s =>
          match dict_get (channels s) (VInt channel_idx) with
          | None =>
              (Err (FluxUSBError_msg
                      ("Recv bad channel idx 0x" ++ hex02 channel_idx)), s)
          | Some channel =>
              if fin =? 0xf0 then
                match unpackb buf with
                | Some obj =>
                    update_channel channel_idx (on_object channel obj) s
                | None => (Err UnpackError, s)
                end
              else if fin =? 0xff then
                (_send_binary_ack channel_idx ;;;
                 update_channel channel_idx (on_binary channel buf)) s
              else if fin =? 0xc0 then
                update_channel channel_idx (on_binary_ack channel) s
              else
                (Err (FluxUSBError_msg ("Recv bad fin 0x" ++ hex02 fin)), s)
          end
      else if channel_idx =? 0xf1 then
        if negb (fin =? 0xf0) then
          raise (FluxUSBError_msg ("Recv bad fin 0x" ++ hex02 fin))
        else
          match unpackb buf with
          | Some obj => _on_channel_ctrl_response obj
          | None => raise UnpackError
          end
      else
        raise (FluxUSBError_msg
                 ("Recv bad control channel 0x" ++ hex02 channel_idx))
  end.

(** The [while self.running] loop of [run], inside its [try]; [None] when
    [fuel] iterations did not finish it. *)
Fixpoint run_loop (fuel : nat) (s : USBProtocol)
  : option (result unit * USBProtocol) :=
  match fuel with
  | O => None
  | S fuel' =>
      if running s then
        match run_once s with
        | (Ok _, s') => run_loop fuel' s'
        | (Err e, s') => Some (Err e, set_running false s')
        end
      else Some (Ok tt, s)
  end.

Definition run (fuel : nat) (s : USBProtocol)
  : option (result unit * USBProtocol) :=
  run_loop fuel (set_running true s).

Definition stop : M unit := modify (set_running false).

(** *** What the receive loop treats as a protocol violation

    The items listed as fatal for one iteration of the steady-state loop:
    a zero-size marker, a data frame (channel id below 0x80) without a
    registered channel, a data frame whose terminator is none of 0xF0, 0xFF
    and 0xC0, a control-response frame (0xF1) whose terminator is not 0xF0,
    and a frame on any other channel id. *)
Definition protocol_violation (chs : dict Channel) (d : unpacked) : Prop :=
  match d with
  | NeedMoreData => False
  | ZeroMarker => True
  | Frame channel_idx _ fin =>
      (channel_idx < 0x80 /\ dict_get chs (VInt channel_idx) = None) \/
      (channel_idx < 0x80 /\ fin <> 0xf0 /\ fin <> 0xff /\ fin <> 0xc0) \/
      (channel_idx = 0xf1 /\ fin <> 0xf0) \/
      (0x80 <= channel_idx /\ channel_idx <> 0xf1)
  end.

(** A [FluxUSBError] raised with a message alone, as the receive loop and
    the handshake raise it. *)
Definition is_protocol_error {A} (r : result A) : Prop :=
  exists msg, r = Err (FluxUSBError_msg msg).

(** *** Silent peer

    Every coming read returns bytes or times out, and at no point does the
    receive buffer hold anything [_unpack_buffer] can extract. *)
Fixpoint silent (buf : bytes) (script : list (usb_result bytes)) : Prop :=
  fst (unpack_buffer buf) = NeedMoreData /\
  match script with
  | [] => True
  | usb_ok data :: rest => silent (buf ++ data) rest
  | usb_raise e :: rest => is_timeout e = true /\ silent buf rest
  end.

(** Every coming write is accepted. *)
Definition writes_accepted (script : list (usb_result unit)) : Prop :=
  Forall (fun r => r = usb_ok tt) script.

(** *** Channel methods

    A method is given the state of the channel object at the call. Where
    the caller blocks on a semaphore of the channel, [receiver] is what the
    receive loop, running in its own thread, does to the channel before the
    wait ends. *)

(** [Channel.get_object]; [objq.popleft()] raises [IndexError] on an empty
    queue. *)
Definition Channel_get_object (receiver : Channel -> Channel) (c : Channel)
  : channel_result value * Channel :=
  let c1 := receiver c in
  match sem_acquire (obj_semaphore c1) with
  | (false, _) => (Failed (SystemError "TIMEOUT"), c1)
  | (true, n) =>
      match objq c1 with
      | [] => (Failed IndexError, set_objq n [] c1)
      | obj :: q => (Returned obj, set_objq n q c1)
      end
  end.

(** The integer [struct] packs for a channel index: an [int] or a [bool]. *)
Definition index_int (v : value) : option Z :=
  match v with
  | VInt i => Some i
  | VBool true => Some 1
  | VBool false => Some 0
  | _ => None
  end.

(** [Channel.send_object] *)
Definition Channel_send_object (c : Channel) (obj : value) : M unit :=
  match index_int (index c) with
  | Some i => send_object i obj
  | None => raise StructError
  end.

(** [Channel.send_binary] *)
Definition Channel_send_binary (receiver : Channel -> Channel) (c : Channel)
  (buf : bytes) (s : USBProtocol)
  : channel_result unit * Channel * USBProtocol :=
  let sent :=
    match index_int (index c) with
    | Some i => send_binary i buf s
    | None => (Err StructError, s)
    end in
  match sent with
  | (Err e, s') => (Failed (SessionError e), c, s')
  | (Ok _, s') =>
      let c1 := receiver c in
      match sem_acquire (ack_semaphore c1) with
      | (false, _) => (Failed (SystemError "TIMEOUT"), c1, s')
      | (true, n) => (Returned tt, set_ack_semaphore n c1, s')
      end
  end.

(** [Channel.close] *)
Definition Channel_close (c : Channel) (s : USBProtocol)
  : result unit * Channel * USBProtocol :=
  if opened c then
    let c' := set_opened false c in
    let (r, s') := _close_channel c' s in
    (r, c', s')
  else (Ok tt, c, s).

(** *** The next read

    What the coming [_rx.read] gives [_recv]: the bytes read, [b""] on a
    timeout, nothing ([None]) on any other USB error. *)
Definition next_read (script : list (usb_result bytes)) : option bytes :=
  match script with
  | [] => Some []
  | usb_ok data :: _ => Some data
  | usb_raise e :: _ => if is_timeout e then Some [] else None
  end.

(** *** Well-formed dictionaries and wire images *)


(** The bytes of several frames, one after the other. *)
Fixpoint pack_frames (frames : list (Z * bytes * byte)) : option bytes :=
  match frames with
  | [] => Some []
  | (channel, payload, fin) :: rest =>
      match pack_frame channel payload fin, pack_frames rest with
      | Some f, Some fs => Some (f ++ fs)
      | _, _ => None
      end
  end.

(** The last frame of a list, as [_unpack_buffer] returns it. *)
Definition last_frame (frames : list (Z * bytes * byte))
  (data : option unpacked) : option unpacked :=
  match rev frames with
  | [] => data
  | (channel, payload, fin) :: _ => Some (Frame channel payload (Z_of_byte fin))
  end.

(** The channel has as many permits on its object semaphore as objects in
    its queue. *)
Definition queue_balanced (c : Channel) : Prop :=
  obj_semaphore c = length (objq c).

(** * Frame codec: basic facts *)

Lemma Z_of_byte_range (b : byte) : 0 <= Z_of_byte b <= 255.
Proof.
  unfold Z_of_byte. pose proof (Byte.to_N_bounded b). lia.
Qed.

Lemma byte_of_Z_Some (z : Z) (b : byte) :
  byte_of_Z z = Some b -> Z_of_byte b = z.
Proof.
  unfold byte_of_Z, Z_of_byte. destruct (Z.leb_spec 0 z) as [Hz|Hz]; [|discriminate].
  intros H. apply Byte.to_of_N in H. rewrite H. lia.
Qed.

Lemma byte_of_Z_of_byte (b : byte) : byte_of_Z (Z_of_byte b) = Some b.
Proof.
  unfold byte_of_Z, Z_of_byte.
  destruct (Z.leb_spec 0 (Z.of_N (Byte.to_N b))) as [_|H]; [|lia].
  rewrite N2Z.id. apply Byte.of_to_N.
Qed.

Lemma byte_of_Z_in_range (z : Z) :
  0 <= z <= 255 -> exists b, byte_of_Z z = Some b.
Proof.
  intros Hz. unfold byte_of_Z.
  destruct (Z.leb_spec 0 z) as [_|H]; [|lia].
  pose proof (Byte.to_of_N_option_map (Z.to_N z)) as Hm.
  destruct (Byte.of_N (Z.to_N z)) as [b|]; [eauto|].
  simpl in Hm. destruct (N.leb_spec (Z.to_N z) 255) as [_|H]; [discriminate|lia].
Qed.

Lemma HEAD_PACKER_pack_Some (size channel : Z) (lo hi c : byte) :
  HEAD_PACKER_pack size channel = Some [lo; hi; c] ->
  Z_of_byte lo + 256 * Z_of_byte hi = size /\ Z_of_byte c = channel.
Proof.
  unfold HEAD_PACKER_pack.
  destruct (byte_of_Z (size mod 256)) as [lo'|] eqn:Hlo; [|discriminate].
  destruct (byte_of_Z (size / 256)) as [hi'|] eqn:Hhi; [|discriminate].
  destruct (byte_of_Z channel) as [c'|] eqn:Hc; [|discriminate].
  intros [= -> -> ->].
  apply byte_of_Z_Some in Hlo, Hhi, Hc.
  rewrite Hlo, Hhi, Hc. split; [|reflexivity].
  pose proof (Z.div_mod size 256). lia.
Qed.

Lemma HEAD_PACKER_pack_shape (size channel : Z) (head : bytes) :
  HEAD_PACKER_pack size channel = Some head ->
  exists lo hi c, head = [lo; hi; c].
Proof.
  unfold HEAD_PACKER_pack.
  destruct (byte_of_Z (size mod 256)) as [lo|]; [|discriminate].
  destruct (byte_of_Z (size / 256)) as [hi|]; [|discriminate].
  destruct (byte_of_Z channel) as [c|]; [|discriminate].
  intros [= <-]. eauto.
Qed.

Lemma HEAD_PACKER_pack_total (size channel : Z) :
  0 <= size <= 65535 -> 0 <= channel <= 255 ->
  exists head, HEAD_PACKER_pack size channel = Some head.
Proof.
  intros Hs Hc. unfold HEAD_PACKER_pack.
  destruct (byte_of_Z_in_range (size mod 256)) as [lo ->].
  { pose proof (Z.mod_pos_bound size 256). lia. }
  destruct (byte_of_Z_in_range (size / 256)) as [hi ->].
  { split; [apply Z.div_pos; lia|].
    assert (size / 256 < 256) by (apply Z.div_lt_upper_bound; lia). lia. }
  destruct (byte_of_Z_in_range channel) as [c ->]; [lia|]. eauto.
Qed.

Lemma len_app {A} (l l' : list A) : len (l ++ l') = len l + len l'.
Proof. unfold len. rewrite length_app. lia. Qed.

Lemma len_nonneg {A} (l : list A) : 0 <= len l.
Proof. unfold len. lia. Qed.

Lemma pack_frame_Some (channel : Z) (payload : bytes) (fin : byte) (buf : bytes) :
  pack_frame channel payload fin = Some buf ->
  exists lo hi c,
    buf = lo :: hi :: c :: payload ++ [fin] /\
    Z_of_byte lo + 256 * Z_of_byte hi = len payload + 4 /\
    Z_of_byte c = channel.
Proof.
  unfold pack_frame.
  destruct (HEAD_PACKER_pack (len payload + 4) channel) as [head|] eqn:Hh;
    [|discriminate].
  intros [= <-].
  destruct (HEAD_PACKER_pack_shape _ _ _ Hh) as (lo & hi & c & ->).
  apply HEAD_PACKER_pack_Some in Hh as [Hsize Hc].
  exists lo, hi, c. auto.
Qed.

Lemma pack_frame_total (channel : Z) (payload : bytes) (fin : byte) :
  0 <= channel <= 255 -> len payload + 4 <= 65535 ->
  exists buf, pack_frame channel payload fin = Some buf.
Proof.
  intros Hc Hl. unfold pack_frame.
  destruct (HEAD_PACKER_pack_total (len payload + 4) channel) as [head ->];
    [pose proof (len_nonneg payload); lia | lia | eauto].
Qed.

(** Extraction from a buffer that starts with a whole frame of [n]
    payload bytes, whatever follows it. *)
Lemma unpack_buffer_frame (lo hi c fin : byte) (payload rest : bytes) :
  Z_of_byte lo + 256 * Z_of_byte hi = len payload + 4 ->
  unpack_buffer (lo :: hi :: c :: payload ++ fin :: rest) =
    (Frame (Z_of_byte c) payload (Z_of_byte fin), rest).
Proof.
  intros Hsize. unfold unpack_buffer.
  set (buf := lo :: hi :: c :: payload ++ fin :: rest).
  assert (Hl : len buf = len payload + 4 + len rest).
  { unfold buf, len. cbn [length]. rewrite length_app. cbn [length]. lia. }
  pose proof (len_nonneg payload) as Hp. pose proof (len_nonneg rest) as Hr.
  destruct (Z.gtb_spec (len buf) 3) as [_|H]; [|lia].
  change (firstn 3 buf) with [lo; hi; c]. cbn [HEAD_PACKER_unpack].
  rewrite Hsize.
  destruct (Z.eqb_spec (len payload + 4) 0) as [H|_]; [lia|].
  destruct (Z.geb_spec (len buf) (len payload + 4)) as [_|H]; [|lia].
  unfold byte_at, slice, slice_from, len.
  replace (Z.to_nat (Z.of_nat (length payload) + 4 - 1))
    with (3 + length payload)%nat by lia.
  replace (Z.to_nat (Z.of_nat (length payload) + 4 - 1 - 3))
    with (length payload) by lia.
  replace (Z.to_nat (Z.of_nat (length payload) + 4))
    with (3 + (length payload + 1))%nat by lia.
  change (Z.to_nat 3) with 3%nat.
  unfold buf. cbn [nth skipn Nat.add].
  rewrite app_nth2, Nat.sub_diag by lia. cbn [nth].
  rewrite firstn_app, Nat.sub_diag, firstn_all, firstn_O, app_nil_r.
  replace (payload ++ fin :: rest) with ((payload ++ [fin]) ++ rest)
    by (rewrite <- app_assoc; reflexivity).
  rewrite skipn_app.
  rewrite skipn_all2 by (rewrite length_app; cbn [length]; lia).
  rewrite length_app. cbn [length app].
  replace (length payload + 1 - (length payload + 1))%nat with 0%nat by lia.
  reflexivity.
Qed.

(** A buffer shorter than the frame its header announces gives nothing. *)
Lemma unpack_buffer_short (lo hi : byte) (tail : bytes) :
  len (lo :: hi :: tail) < Z_of_byte lo + 256 * Z_of_byte hi ->
  unpack_buffer (lo :: hi :: tail) = (NeedMoreData, lo :: hi :: tail).
Proof.
  intros Hlt. unfold unpack_buffer.
  destruct (Z.gtb_spec (len (lo :: hi :: tail)) 3) as [Hl|_]; [|reflexivity].
  destruct tail as [|c tail]; [unfold len in Hl; cbn in Hl; lia|].
  change (firstn 3 (lo :: hi :: c :: tail)) with [lo; hi; c].
  cbn [HEAD_PACKER_unpack].
  destruct (Z.eqb_spec (Z_of_byte lo + 256 * Z_of_byte hi) 0) as [H|_].
  { pose proof (len_nonneg (lo :: hi :: c :: tail)). lia. }
  destruct (Z.geb_spec (len (lo :: hi :: c :: tail))
              (Z_of_byte lo + 256 * Z_of_byte hi)) as [H|_]; [lia|reflexivity].
Qed.

Lemma unpack_buffer_le3 (buf : bytes) :
  (length buf <= 3)%nat -> unpack_buffer buf = (NeedMoreData, buf).
Proof.
  intros H. unfold unpack_buffer.
  destruct (Z.gtb_spec (len buf) 3) as [Hl|_]; [unfold len in Hl; lia|reflexivity].
Qed.

(** The header of a buffer longer than three bytes always unpacks: the
    [struct.error] branch of [unpack_buffer] is never taken. *)
Lemma HEAD_PACKER_unpack_header (buf : bytes) :
  len buf > 3 ->
  exists size channel_idx,
    HEAD_PACKER_unpack (firstn 3 buf) = Some (size, channel_idx) /\
    0 <= size <= 65535 /\ 0 <= channel_idx <= 255.
Proof.
  intros Hl.
  destruct buf as [|lo [|hi [|c tail]]]; try (unfold len in Hl; cbn in Hl; lia).
  change (firstn 3 (lo :: hi :: c :: tail)) with [lo; hi; c].
  cbn [HEAD_PACKER_unpack].
  pose proof (Z_of_byte_range lo). pose proof (Z_of_byte_range hi).
  pose proof (Z_of_byte_range c).
  eexists _, _. split; [reflexivity|]. lia.
Qed.

(** * Frame codec: round trip, partial delivery, degenerate sizes *)

(** C5. Round trip. For every channel id in 0..255, every payload whose
    frame size [len(payload) + 4] fits the 16-bit size field, and every
    terminator byte, packing succeeds, the packed bytes are the
    little-endian size, the channel id, the payload and the terminator, and
    extraction from a buffer holding exactly those bytes gives back the
    channel id, the payload and the terminator and leaves the buffer empty. *)
Theorem pack_unpack_roundtrip (channel : Z) (payload : bytes) (fin : byte) :
  0 <= channel <= 255 ->
  len payload + 4 <= 65535 ->
  exists lo hi c,
    pack_frame channel payload fin = Some (lo :: hi :: c :: payload ++ [fin]) /\
    Z_of_byte lo = (len payload + 4) mod 256 /\
    Z_of_byte hi = (len payload + 4) / 256 /\
    Z_of_byte c = channel /\
    unpack_buffer (lo :: hi :: c :: payload ++ [fin]) =
      (Frame channel payload (Z_of_byte fin), []).
Proof.
  intros Hc Hl.
  destruct (pack_frame_total channel payload fin Hc Hl) as [buf Hbuf].
  destruct (pack_frame_Some _ _ _ _ Hbuf) as (lo & hi & c & -> & Hsize & Hch).
  exists lo, hi, c. split; [exact Hbuf|].
  pose proof (Z_of_byte_range lo) as Hlo.
  pose proof (Z_of_byte_range hi) as Hhi.
  assert (Hdiv : (len payload + 4) / 256 = Z_of_byte hi).
  { rewrite <- Hsize. symmetry. apply Z.div_unique with (r := Z_of_byte lo); lia. }
  assert (Hmod : (len payload + 4) mod 256 = Z_of_byte lo).
  { rewrite <- Hsize. symmetry. apply Z.mod_unique with (q := Z_of_byte hi); lia. }
  repeat split; auto.
  rewrite <- Hch. apply unpack_buffer_frame. exact Hsize.
Qed.

(** C6. Zero-size marker. When the first two bytes of the buffer read as
    size 0 and at least two more bytes follow, extraction gives the
    zero-size marker and drops exactly those two bytes: the byte that stood
    where a channel id would be is now the first byte of the buffer. *)
Theorem zero_marker_drops_two_bytes (lo hi c : byte) (rest : bytes) :
  Z_of_byte lo + 256 * Z_of_byte hi = 0 ->
  (1 <= length rest)%nat ->
  unpack_buffer (lo :: hi :: c :: rest) = (ZeroMarker, c :: rest) /\
  length (snd (unpack_buffer (lo :: hi :: c :: rest))) =
    (length (lo :: hi :: c :: rest) - 2)%nat.
Proof.
  intros Hsize Hrest.
  assert (H : unpack_buffer (lo :: hi :: c :: rest) = (ZeroMarker, c :: rest)).
  { unfold unpack_buffer.
    destruct (Z.gtb_spec (len (lo :: hi :: c :: rest)) 3) as [_|Hl].
    - change (firstn 3 (lo :: hi :: c :: rest)) with [lo; hi; c].
      cbn [HEAD_PACKER_unpack]. rewrite Hsize. reflexivity.
    - unfold len in Hl. cbn [length] in Hl. lia. }
  split; [exact H|]. rewrite H. cbn [snd length]. lia.
Qed.

(** C7. Partial delivery. For every frame that packs, extraction from every
    strict prefix of its bytes gives need-more-data and leaves the buffer as
    it was, and extraction from all of its bytes gives the frame; a buffer
    of exactly three bytes always gives need-more-data. *)
Theorem partial_delivery (channel : Z) (payload : bytes) (fin : byte)
  (buf : bytes) :
  pack_frame channel payload fin = Some buf ->
  (forall pre suf : bytes,
      buf = pre ++ suf -> suf <> [] ->
      unpack_buffer pre = (NeedMoreData, pre)) /\
  unpack_buffer buf = (Frame channel payload (Z_of_byte fin), []) /\
  (forall b0 b1 b2 : byte,
      unpack_buffer [b0; b1; b2] = (NeedMoreData, [b0; b1; b2])).
Proof.
  intros Hbuf.
  destruct (pack_frame_Some _ _ _ _ Hbuf) as (lo & hi & c & -> & Hsize & Hch).
  split; [|split].
  - intros pre suf Heq Hsuf.
    assert (Hlen : (length pre < length payload + 4)%nat).
    { apply (f_equal (@length byte)) in Heq.
      cbn [length] in Heq. rewrite !length_app in Heq. cbn [length] in Heq.
      destruct suf; [congruence|]. cbn [length] in Heq. lia. }
    destruct pre as [|p0 [|p1 tail]];
      try (apply unpack_buffer_le3; cbn [length]; lia).
    cbn [app] in Heq. injection Heq as -> -> _.
    apply unpack_buffer_short. rewrite Hsize. unfold len in *. lia.
  - rewrite <- Hch. apply unpack_buffer_frame. exact Hsize.
  - intros b0 b1 b2. apply unpack_buffer_le3. cbn [length]. lia.
Qed.

(** C10. Sizes below four are not rejected. For every buffer of at least
    four bytes whose size field reads 1, 2 or 3, extraction gives a frame:
    its payload is empty, its terminator is the byte at offset [size - 1]
    of the three header bytes (the low size byte for size 1, the high size
    byte for size 2, the channel byte for size 3) and only [size] bytes are
    dropped from the buffer. *)
Theorem undersized_frame_is_extracted (lo hi c : byte) (rest : bytes) (size : Z) :
  size = Z_of_byte lo + 256 * Z_of_byte hi ->
  1 <= size <= 3 ->
  (1 <= length rest)%nat ->
  unpack_buffer (lo :: hi :: c :: rest) =
    (Frame (Z_of_byte c) [] (byte_at [lo; hi; c] (size - 1)),
     skipn (Z.to_nat size) (lo :: hi :: c :: rest)) /\
  (size = 1 -> byte_at [lo; hi; c] (size - 1) = Z_of_byte lo) /\
  (size = 2 -> byte_at [lo; hi; c] (size - 1) = Z_of_byte hi) /\
  (size = 3 -> byte_at [lo; hi; c] (size - 1) = Z_of_byte c).
Proof.
  intros Hsize Hrange Hrest. split.
  - unfold unpack_buffer.
    destruct (Z.gtb_spec (len (lo :: hi :: c :: rest)) 3) as [Hl|Hl];
      [|unfold len in Hl; cbn [length] in Hl; lia].
    change (firstn 3 (lo :: hi :: c :: rest)) with [lo; hi; c].
    cbn [HEAD_PACKER_unpack]. rewrite <- Hsize.
    destruct (Z.eqb_spec size 0) as [H|_]; [lia|].
    destruct (Z.geb_spec (len (lo :: hi :: c :: rest)) size) as [_|H]; [|lia].
    unfold byte_at, slice, slice_from.
    assert (Hcases : size = 1 \/ size = 2 \/ size = 3) by lia.
    destruct Hcases as [-> | [-> | ->]]; reflexivity.
  - repeat split; intros ->; reflexivity.
Qed.

(** * Low level send and receive *)

Lemma _send_ok (buf : bytes) (s s' : USBProtocol) :
  _send buf s = (Ok tt, s') ->
  tx_log s' = tx_log s ++ [buf] /\ tx_script s' = tl (tx_script s) /\
  running s' = running s /\ session s' = session s /\ _buf s' = _buf s /\
  channels s' = channels s /\ chl_semaphore s' = chl_semaphore s /\
  rx_script s' = rx_script s.
Proof.
  unfold _send, tx_write.
  destruct (tx_script s) as [|[u|e] rest].
  - intros [= <-]. cbn. auto 10.
  - intros [= <-]. cbn. auto 10.
  - destruct (is_timeout e); discriminate.
Qed.

Lemma _send_accepted (buf : bytes) (s : USBProtocol) :
  writes_accepted (tx_script s) ->
  exists s', _send buf s = (Ok tt, s') /\ writes_accepted (tx_script s').
Proof.
  unfold _send, tx_write, writes_accepted. intros Hall.
  destruct (tx_script s) as [|r rest] eqn:Hs.
  - eexists. split; [reflexivity|]. cbn. constructor.
  - inversion Hall as [|? ? Hr Hrest]; subst.
    eexists. split; [reflexivity|]. cbn. exact Hrest.
Qed.

Lemma send_object_ok (channel : Z) (obj : value) (s s' : USBProtocol) :
  send_object channel obj s = (Ok tt, s') ->
  exists lo hi c,
    _send (lo :: hi :: c :: packb obj ++ [xb0]) s = (Ok tt, s') /\
    Z_of_byte lo + 256 * Z_of_byte hi = len (packb obj) + 4 /\
    Z_of_byte c = channel.
Proof.
  unfold send_object.
  destruct (pack_frame channel (packb obj) xb0) as [buf|] eqn:Hp;
    [|discriminate].
  intros Hs.
  destruct (pack_frame_Some _ _ _ _ Hp) as (lo & hi & c & -> & Hsize & Hc).
  exists lo, hi, c. auto.
Qed.

(** C1 (as the code has it). Every frame a sender emits ends with the
    terminator of its kind with bit 0x40 cleared: [send_object] writes a
    frame ending in 0xB0, [send_binary] one ending in 0xBF and
    [_send_binary_ack] one ending in 0x80, while the receive loop checks
    incoming frames for 0xF0, 0xFF and 0xC0; the frame is the packed header
    (size [len(payload) + 4], the channel id) followed by the payload. *)
Theorem emitted_terminators (s : USBProtocol) (channel : Z) :
  (forall obj s',
      send_object channel obj s = (Ok tt, s') ->
      exists lo hi c,
        tx_log s' = tx_log s ++ [lo :: hi :: c :: packb obj ++ [xb0]] /\
        Z_of_byte lo + 256 * Z_of_byte hi = len (packb obj) + 4 /\
        Z_of_byte c = channel) /\
  (forall buf s',
      send_binary channel buf s = (Ok tt, s') ->
      exists lo hi c,
        tx_log s' = tx_log s ++ [lo :: hi :: c :: buf ++ [xbf]] /\
        Z_of_byte lo + 256 * Z_of_byte hi = len buf + 4 /\
        Z_of_byte c = channel) /\
  (forall s',
      _send_binary_ack channel s = (Ok tt, s') ->
      exists lo hi c,
        tx_log s' = tx_log s ++ [[lo; hi; c; x80]] /\
        Z_of_byte lo + 256 * Z_of_byte hi = 4 /\
        Z_of_byte c = channel) /\
  Z_of_byte xb0 = 0xf0 - 0x40 /\ Z_of_byte xbf = 0xff - 0x40 /\
  Z_of_byte x80 = 0xc0 - 0x40.
Proof.
  split; [|split; [|split]].
  - intros obj s' Hs.
    destruct (send_object_ok _ _ _ _ Hs) as (lo & hi & c & Hsend & Hsize & Hc).
    apply _send_ok in Hsend as [Hlog _].
    exists lo, hi, c. auto.
  - intros buf s'. unfold send_binary.
    destruct (pack_frame channel buf xbf) as [buf'|] eqn:Hp; [|discriminate].
    intros Hs. apply _send_ok in Hs as [Hlog _].
    destruct (pack_frame_Some _ _ _ _ Hp) as (lo & hi & c & -> & Hsize & Hc).
    exists lo, hi, c. auto.
  - intros s'. unfold _send_binary_ack.
    destruct (HEAD_PACKER_pack 4 channel) as [head|] eqn:Hp; [|discriminate].
    intros Hs. apply _send_ok in Hs as [Hlog _].
    destruct (HEAD_PACKER_pack_shape _ _ _ Hp) as (lo & hi & c & ->).
    apply HEAD_PACKER_pack_Some in Hp as [Hsize Hc].
    exists lo, hi, c. auto.
  - repeat split; reflexivity.
Qed.

(** C9 (as the code has it). A USB error whose errno is not ETIMEDOUT is
    raised again as a [FluxUSBError] with the arguments of the USB error, by
    one call of the endpoint and without a retry: on the write path its
    symbol is [("UNKNOWN_ERROR", code)], the code being the errno name or,
    without a name, the errno itself; on the read path its symbol is the
    default [("UNKNOWN_ERROR",)], with no code. A write timeout is raised
    with the symbol [("TIMEOUT",)] and a read timeout returns [b""]. *)
Theorem transport_errors (s : USBProtocol) (e : USBError) :
  (forall buf rest,
      tx_script s = usb_raise e :: rest ->
      _send buf s =
        (Err (FluxUSBError (usb_args e)
                (if is_timeout e then [VStr "TIMEOUT"]
                 else [VStr "UNKNOWN_ERROR"; errorcode_get (usb_errno e)])),
         set_tx rest (tx_log s) s)) /\
  (forall length timeout_ms rest,
      rx_script s = usb_raise e :: rest ->
      _recv length timeout_ms s =
        (if is_timeout e then Ok []
         else Err (FluxUSBError (usb_args e) [VStr "UNKNOWN_ERROR"]),
         set_rx_script rest s)).
Proof.
  split.
  - intros buf rest Hs. unfold _send, tx_write. rewrite Hs.
    destruct (is_timeout e); reflexivity.
  - intros length timeout_ms rest Hs. unfold _recv, rx_read. rewrite Hs.
    destruct (is_timeout e); reflexivity.
Qed.

(** * Channel index selection *)

Lemma value_eqb_VInt (k : value) (i : Z) :
  value_eqb k (VInt i) = true -> k = VInt i.
Proof.
  destruct k; cbn; try discriminate.
  intros H. apply Z.eqb_eq in H. congruence.
Qed.

Lemma dict_get_In_key {V} (d : dict V) (i : Z) :
  dict_get d (VInt i) <> None -> In (VInt i) (map fst d).
Proof.
  induction d as [|[k v] d IH]; cbn; [congruence|].
  destruct (value_eqb k (VInt i)) eqn:Hk.
  - intros _. left. apply value_eqb_VInt. exact Hk.
  - intros H. right. apply IH. exact H.
Qed.

Lemma range_S (k : nat) :
  range (Z.of_nat (S k)) = range (Z.of_nat k) ++ [Z.of_nat k].
Proof.
  unfold range. rewrite !Nat2Z.id, seq_S, map_app. reflexivity.
Qed.

Lemma In_range (k : nat) (i : Z) :
  In i (range (Z.of_nat k)) <-> 0 <= i < Z.of_nat k.
Proof.
  unfold range. rewrite Nat2Z.id, in_map_iff. split.
  - intros (n & <- & Hn). apply in_seq in Hn. lia.
  - intros Hi. exists (Z.to_nat i). split; [lia|]. apply in_seq. lia.
Qed.

(** Some index of [range(len(chs) + 1)] is free: there are more indices
    than keys. *)
Lemma free_index_exists (chs : dict Channel) :
  exists i, 0 <= i <= len chs /\ dict_get chs (VInt i) = None.
Proof.
  destruct (existsb (fun i => match dict_get chs (VInt i) with
                              | None => true
                              | Some _ => false
                              end) (range (Z.of_nat (S (length chs))))) eqn:Hex.
  - apply existsb_exists in Hex as (i & Hin & Hfree).
    apply In_range in Hin. exists i. split; [unfold len; lia|].
    destruct (dict_get chs (VInt i)); [discriminate|reflexivity].
  - exfalso.
    assert (Hincl : incl (map VInt (range (Z.of_nat (S (length chs)))))
                      (map fst chs)).
    { intros v Hv. apply in_map_iff in Hv as (i & <- & Hin).
      apply dict_get_In_key. intros Hnone.
      assert (Hc : existsb (fun i => match dict_get chs (VInt i) with
                                     | None => true
                                     | Some _ => false
                                     end)
                     (range (Z.of_nat (S (length chs)))) = true).
      { apply existsb_exists. exists i. rewrite Hnone. auto. }
      congruence. }
    assert (Hnd : NoDup (map VInt (range (Z.of_nat (S (length chs)))))).
    { unfold range. rewrite Nat2Z.id, map_map.
      apply Injective_map_NoDup; [|apply seq_NoDup].
      intros x y [= H]. lia. }
    pose proof (NoDup_incl_length Hnd Hincl) as Hlen.
    unfold range in Hlen. rewrite !length_map, length_seq, Nat2Z.id in Hlen.
    lia.
Qed.

(** What the loop leaves in [idx] after [range(k)]. *)
Lemma open_channel_idx_upto (chs : dict Channel) (k : nat) :
  match fold_left
          (fun idx i =>
             match dict_get chs (VInt i) with
             | None => Some i
             | Some _ => idx
             end) (range (Z.of_nat k)) None with
  | Some i =>
      0 <= i < Z.of_nat k /\ dict_get chs (VInt i) = None /\
      forall j, i < j < Z.of_nat k -> dict_get chs (VInt j) <> None
  | None => forall j, 0 <= j < Z.of_nat k -> dict_get chs (VInt j) <> None
  end.
Proof.
  induction k as [|k IH].
  - cbn. intros j Hj. lia.
  - rewrite range_S, fold_left_app. cbn [fold_left].
    destruct (dict_get chs (VInt (Z.of_nat k))) as [c|] eqn:Hk.
    + destruct (fold_left _ (range (Z.of_nat k)) None) as [i|].
      * destruct IH as (Hi & Hfree & Hlater). split; [lia|]. split; [exact Hfree|].
        intros j Hj. destruct (Z.eq_dec j (Z.of_nat k)) as [->|Hne];
          [congruence | apply Hlater; lia].
      * intros j Hj. destruct (Z.eq_dec j (Z.of_nat k)) as [->|Hne];
          [congruence | apply IH; lia].
    + split; [lia|]. split; [exact Hk|]. intros j Hj. lia.
Qed.

Lemma open_channel_idx_spec (chs : dict Channel) :
  exists i,
    open_channel_idx chs = Some i /\
    0 <= i <= len chs /\
    dict_get chs (VInt i) = None /\
    forall j, i < j <= len chs -> dict_get chs (VInt j) <> None.
Proof.
  pose proof (open_channel_idx_upto chs (S (length chs))) as H.
  unfold open_channel_idx.
  replace (len chs + 1) with (Z.of_nat (S (length chs))) by (unfold len; lia).
  destruct (fold_left _ (range (Z.of_nat (S (length chs)))) None) as [i|].
  - destruct H as (Hi & Hfree & Hlater). exists i. unfold len.
    repeat split; [lia | lia | exact Hfree |].
    intros j Hj. apply Hlater. lia.
  - exfalso. destruct (free_index_exists chs) as (i & Hi & Hfree).
    apply (H i); [unfold len in Hi; lia | exact Hfree].
Qed.

(** What [open_channel] picks, in general. For every state of the channel
    map the loop ends with the highest index of [0 .. len(channels)] that is
    not a key of the map (one always exists), and the open request sent on
    channel 0xF0 names exactly that index; the caller then gets the channel
    registered at that index when its wait ends, or the error "Channel
    creation failed". *)
Theorem open_channel_picks_highest_free (s : USBProtocol)
  (channel_type : string) (receiver : USBProtocol -> USBProtocol) :
  exists i,
    open_channel_idx (channels s) = Some i /\
    0 <= i <= len (channels s) /\
    dict_get (channels s) (VInt i) = None /\
    (forall j, i < j <= len (channels s) ->
               dict_get (channels s) (VInt j) <> None) /\
    (forall e s1,
        send_object 0xf0 (open_request (Some i) channel_type) s = (Err e, s1) ->
        open_channel channel_type receiver s = (Err e, s1)) /\
    (forall s1,
        send_object 0xf0 (open_request (Some i) channel_type) s = (Ok tt, s1) ->
        (exists lo hi,
            tx_log s1 = tx_log s ++
              [lo :: hi :: xf0 ::
                 packb (VMap [(VStr "channel", VInt i);
                              (VStr "action", VStr "open");
                              (VStr "type", VStr channel_type)]) ++ [xb0]]) /\
        open_channel channel_type receiver s =
          let s2 := receiver s1 in
          let s3 := set_chl_semaphore (snd (sem_acquire (chl_semaphore s2))) s2 in
          match dict_get (channels s3) (VInt i) with
          | Some channel => (Ok channel, s3)
          | None => (Err (RuntimeError "Channel creation failed"), s3)
          end).
Proof.
  destruct (open_channel_idx_spec (channels s)) as (i & Hidx & Hi & Hfree & Hlater).
  exists i. repeat split; try assumption; try lia.
  - intros e s1 Hsend. unfold open_channel. rewrite Hidx, Hsend. reflexivity.
  - destruct (send_object_ok _ _ _ _ H) as (lo & hi & c & Hsend & _ & Hc).
    apply _send_ok in Hsend as [Hlog _].
    exists lo, hi. rewrite Hlog.
    assert (c = xf0) as ->.
    { apply (f_equal byte_of_Z) in Hc. rewrite byte_of_Z_of_byte in Hc.
      cbn in Hc. congruence. }
    reflexivity.
  - unfold open_channel. rewrite Hidx, H. reflexivity.
Qed.

(** * Control responses *)

Lemma bytes_eqb_eq (x y : bytes) : bytes_eqb x y = true <-> x = y.
Proof.
  revert y. induction x as [|a x IH]; intros [|c y]; cbn; try easy.
  rewrite andb_true_iff, IH. split.
  - intros [Hb ->]. apply Byte.byte_dec_bl in Hb. congruence.
  - intros [= -> ->]. split; [apply Byte.byte_dec_lb|]; reflexivity.
Qed.

Lemma value_eqb_VBytes (v : value) (x : bytes) :
  value_eqb v (VBytes x) = true <-> v = VBytes x.
Proof.
  destruct v; cbn; try easy.
  rewrite bytes_eqb_eq. split; congruence.
Qed.

(** C3 (as the code has it). Handling a control response with action
    "open" and a status other than "ok" changes nothing in the session: no
    waiter is released and no channel is registered. An opener that waits
    on a semaphore at zero is therefore woken by the expiry of its bounded
    wait, not by the handler, and then fails with "Channel creation
    failed". *)
Theorem open_failure_releases_no_waiter (m : dict value) (s : USBProtocol)
  (channel_type : string) :
  value_get m (VBytes (bytes_lit "action")) = VBytes (bytes_lit "open") ->
  value_get m (VBytes (bytes_lit "status")) <> VBytes (bytes_lit "ok") ->
  _on_channel_ctrl_response (VMap m) s = (Ok tt, s) /\
  (chl_semaphore s = 0%nat ->
   forall s1,
     send_object 0xf0
       (open_request (open_channel_idx (channels s)) channel_type) s
       = (Ok tt, s1) ->
     let receiver := fun st => snd (_on_channel_ctrl_response (VMap m) st) in
     sem_acquire (chl_semaphore (receiver s1)) = (false, 0%nat) /\
     open_channel channel_type receiver s =
       (Err (RuntimeError "Channel creation failed"),
        set_chl_semaphore 0 s1)).
Proof.
  intros Haction Hstatus.
  assert (Hnoop : forall st, _on_channel_ctrl_response (VMap m) st = (Ok tt, st)).
  { intros st. unfold _on_channel_ctrl_response. rewrite Haction.
    replace (value_eqb (VBytes (bytes_lit "open")) (VBytes (bytes_lit "open")))
      with true by (symmetry; apply value_eqb_VBytes; reflexivity).
    destruct (value_eqb (value_get m (VBytes (bytes_lit "status")))
                (VBytes (bytes_lit "ok"))) eqn:Hok; [|reflexivity].
    apply value_eqb_VBytes in Hok. contradiction. }
  split; [apply Hnoop|].
  intros Hsem s1 Hsend receiver. subst receiver. cbn beta.
  rewrite Hnoop. cbn [snd].
  destruct (open_channel_idx_spec (channels s)) as (i & Hidx & _ & Hfree & _).
  rewrite Hidx in Hsend.
  destruct (send_object_ok _ _ _ _ Hsend) as (lo & hi & c & Hs & _ & _).
  apply _send_ok in Hs as (_ & _ & _ & _ & _ & Hch & Hsem1 & _).
  rewrite Hsem1, Hsem. split; [reflexivity|].
  unfold open_channel. rewrite Hidx, Hsend, Hnoop. cbn [snd].
  rewrite Hsem1, Hsem. cbn [sem_acquire snd idx_value].
  replace (channels (set_chl_semaphore 0 s1)) with (channels s1) by reflexivity.
  rewrite Hch, Hfree. reflexivity.
Qed.

(** * Handshake *)

Lemma set_buf_same (s : USBProtocol) : set_buf (_buf s) s = s.
Proof. destruct s. reflexivity. Qed.

Lemma unpack_buffer_need_more (buf : bytes) :
  fst (unpack_buffer buf) = NeedMoreData ->
  unpack_buffer buf = (NeedMoreData, buf).
Proof.
  unfold unpack_buffer.
  destruct (len buf >? 3); [|reflexivity].
  destruct (HEAD_PACKER_unpack (firstn 3 buf)) as [[size channel_idx]|];
    [|reflexivity].
  destruct (size =? 0); [discriminate|].
  destruct (len buf >=? size); [discriminate|reflexivity].
Qed.

Lemma _feed_buffer_silent (s : USBProtocol) :
  silent (_buf s) (rx_script s) ->
  exists s1,
    _feed_buffer s = (Ok tt, s1) /\
    silent (_buf s1) (rx_script s1) /\
    tx_script s1 = tx_script s /\ tx_log s1 = tx_log s.
Proof.
  intros Hsilent. unfold _feed_buffer, bind, modify, _recv, rx_read.
  destruct (rx_script s) as [|[data|e] rest] eqn:Hrx.
  - unfold is_timeout. cbn [usb_errno]. rewrite Z.eqb_refl.
    eexists. split; [reflexivity|].
    cbn [_buf rx_script tx_script tx_log set_buf].
    rewrite app_nil_r, Hrx. auto.
  - cbn [silent] in Hsilent. destruct Hsilent as [_ Hrest].
    eexists. split; [reflexivity|].
    cbn [_buf rx_script tx_script tx_log set_buf set_rx_script]. auto.
  - cbn [silent] in Hsilent. destruct Hsilent as (_ & Htimeout & Hrest).
    rewrite Htimeout.
    eexists. split; [reflexivity|].
    cbn [_buf rx_script tx_script tx_log set_buf set_rx_script].
    rewrite app_nil_r. auto.
Qed.

Lemma drain_nothing (fuel : nat) (s : USBProtocol) :
  fst (unpack_buffer (_buf s)) = NeedMoreData ->
  drain (S fuel) None s = Some (None, s).
Proof.
  intros H. cbn [drain]. unfold _unpack_buffer.
  rewrite (unpack_buffer_need_more _ H), set_buf_same. reflexivity.
Qed.

Lemma silent_head (buf : bytes) (script : list (usb_result bytes)) :
  silent buf script -> fst (unpack_buffer buf) = NeedMoreData.
Proof. destruct script; intros H; apply H. Qed.

(** With a silent peer every pass of the loop ends in a retry, so a budget
    of [k] retries is spent in [k] passes and [k] pings. *)
Lemma handshake_countdown (ping : bytes) (k extra : nat) (s : USBProtocol) :
  pack_frame 0xfc (packb VNone) xb0 = Some ping ->
  silent (_buf s) (rx_script s) ->
  writes_accepted (tx_script s) ->
  exists s',
    do_handshake_loop (S k + extra) (Z.of_nat k) s =
      Some (Err (FluxUSBError_msg "Handshake failed."), s') /\
    tx_log s' = tx_log s ++ repeat ping k.
Proof.
  intros Hping. revert s. induction k as [|k IH]; intros s Hsilent Hwrites.
  - exists s. cbn. rewrite app_nil_r. auto.
  - destruct (_feed_buffer_silent s Hsilent) as (s1 & Hfeed & Hs1 & Htx1 & Hlog1).
    assert (Hw1 : writes_accepted (tx_script s1)) by (rewrite Htx1; exact Hwrites).
    destruct (_send_accepted ping s1 Hw1) as (s2 & Hsend & Hw2).
    pose proof (_send_ok _ _ _ Hsend)
      as (Hlog2 & _ & _ & _ & Hbuf2 & _ & _ & Hrx2).
    destruct (IH s2) as (s' & Hloop & Hlog'); [rewrite Hbuf2, Hrx2; exact Hs1 | exact Hw2 |].
    exists s'. split.
    + change (S (S k) + extra)%nat with (S (S k + extra)).
      cbn [do_handshake_loop].
      destruct (Z.eqb_spec (Z.of_nat (S k)) 0) as [H|_]; [lia|].
      rewrite Hfeed, (drain_nothing _ _ (silent_head _ _ Hs1)).
      unfold send_object. rewrite Hping, Hsend.
      replace (Z.of_nat (S k) - 1) with (Z.of_nat k) by lia.
      exact Hloop.
    + rewrite Hlog', Hlog2, Hlog1, <- app_assoc. reflexivity.
Qed.

(** C4. Retry exhaustion. When the peer stays silent (each read returns
    bytes or times out and the buffer never holds an extractable item) and
    the writes are accepted, [do_handshake] returns within six passes of
    its loop: it has written exactly five ping frames, each the packed
    object [None] on channel 0xFC, and it raises
    [FluxUSBError("Handshake failed.")]. *)
Theorem handshake_retry_exhaustion (s : USBProtocol) (fuel : nat) :
  silent (_buf s) (rx_script s) ->
  writes_accepted (tx_script s) ->
  len (packb VNone) + 4 <= 65535 ->
  (6 <= fuel)%nat ->
  exists lo hi s',
    let ping := lo :: hi :: xfc :: packb VNone ++ [xb0] in
    Z_of_byte lo + 256 * Z_of_byte hi = len (packb VNone) + 4 /\
    do_handshake fuel s =
      Some (Err (FluxUSBError_msg "Handshake failed."), s') /\
    tx_log s' = tx_log s ++ [ping; ping; ping; ping; ping].
Proof.
  intros Hsilent Hwrites Hlen Hfuel.
  destruct (pack_frame_total 0xfc (packb VNone) xb0) as [ping Hping]; [lia|lia|].
  destruct (pack_frame_Some _ _ _ _ Hping) as (lo & hi & c & Heq & Hsize & Hc).
  assert (c = xfc) as ->.
  { apply (f_equal byte_of_Z) in Hc. rewrite byte_of_Z_of_byte in Hc.
    cbn in Hc. congruence. }
  destruct (handshake_countdown ping 5 (fuel - 6) s Hping Hsilent Hwrites)
    as (s' & Hloop & Hlog).
  exists lo, hi, s'. cbn zeta. split; [exact Hsize|].
  unfold do_handshake. change 5 with (Z.of_nat 5).
  replace fuel with (6 + (fuel - 6))%nat by lia.
  split; [exact Hloop|]. rewrite Hlog, Heq. reflexivity.
Qed.

(** Every extraction shortens the buffer, so the inner loop of the
    handshake ends within [len(buf) + 1] extractions. *)
Lemma unpack_buffer_consumes (buf rest : bytes) (d : unpacked) :
  unpack_buffer buf = (d, rest) -> d <> NeedMoreData ->
  (length rest < length buf)%nat.
Proof.
  unfold unpack_buffer.
  destruct (Z.gtb_spec (len buf) 3) as [Hl|_]; [|intros [= <- <-]; congruence].
  destruct buf as [|lo [|hi [|c tail]]]; try (unfold len in Hl; cbn in Hl; lia).
  change (firstn 3 (lo :: hi :: c :: tail)) with [lo; hi; c].
  cbn [HEAD_PACKER_unpack].
  assert (Hsize : 0 <= Z_of_byte lo + 256 * Z_of_byte hi).
  { pose proof (Z_of_byte_range lo). pose proof (Z_of_byte_range hi). lia. }
  remember (Z_of_byte lo + 256 * Z_of_byte hi) as size eqn:Esize.
  clear Esize.
  destruct (Z.eqb_spec size 0) as [_|Hnz].
  { intros [= <- <-] _. unfold slice_from. rewrite length_skipn.
    cbn [length]. lia. }
  destruct (Z.geb_spec (len (lo :: hi :: c :: tail)) size) as [Hge|_];
    [|intros [= <- <-]; congruence].
  intros [= <- <-] _. unfold slice_from. rewrite length_skipn.
  cbn [length]. lia.
Qed.

Lemma drain_terminates (fuel : nat) (data : option unpacked) (s : USBProtocol) :
  (length (_buf s) < fuel)%nat -> exists r, drain fuel data s = Some r.
Proof.
  revert data s. induction fuel as [|fuel IH]; intros data s Hlt; [lia|].
  cbn [drain]. unfold _unpack_buffer.
  destruct (unpack_buffer (_buf s)) as [d rest] eqn:Hd.
  destruct d as [| |channel_idx buf fin]; [eauto| |];
    (apply IH; cbn [_buf set_buf];
     apply unpack_buffer_consumes in Hd; [lia|discriminate]).
Qed.

(** [==] on values is structural equality. *)
Lemma value_eqb_eq : forall a c : value, value_eqb a c = true -> a = c.
Proof.
  fix IH 1.
  intros [ | x | x | x | x | l | m] [ | y | y | y | y | l' | m'];
    cbn [value_eqb]; try discriminate; intros H.
  - reflexivity.
  - apply Bool.eqb_prop in H. congruence.
  - apply Z.eqb_eq in H. congruence.
  - apply String.eqb_eq in H. congruence.
  - apply bytes_eqb_eq in H. congruence.
  - f_equal. revert l' H.
    induction l as [|v l IHl]; intros [|v' l'] H; try discriminate;
      [reflexivity|].
    apply andb_true_iff in H as [Hv Hl].
    f_equal; [apply IH; exact Hv | apply IHl; exact Hl].
  - f_equal. revert m' H.
    induction m as [|[k v] m IHm]; intros [|[k' v'] m'] H; try discriminate;
      [reflexivity|].
    apply andb_true_iff in H as [Hkv Hm].
    apply andb_true_iff in Hkv as [Hk Hv].
    f_equal; [f_equal; apply IH; assumption | apply IHm; exact Hm].
Qed.

(** * Steady-state receive loop *)

Lemma _send_not_protocol_error (buf : bytes) (s : USBProtocol) :
  ~ is_protocol_error (fst (_send buf s)).
Proof.
  unfold _send, tx_write, is_protocol_error, FluxUSBError_msg, default_symbol.
  destruct (tx_script s) as [|[u|e] rest]; cbn [fst];
    try (intros [msg H]; discriminate).
  destruct (is_timeout e); cbn [fst]; intros [msg H]; discriminate.
Qed.

Lemma _send_binary_ack_not_protocol_error (channel_idx : Z) (s : USBProtocol) :
  ~ is_protocol_error (fst (_send_binary_ack channel_idx s)).
Proof.
  unfold _send_binary_ack.
  destruct (HEAD_PACKER_pack 4 channel_idx) as [head|].
  - apply _send_not_protocol_error.
  - cbn. intros [msg H]. discriminate.
Qed.

Lemma _on_channel_ctrl_response_not_protocol_error (obj : value)
  (s : USBProtocol) :
  ~ is_protocol_error (fst (_on_channel_ctrl_response obj s)).
Proof.
  unfold _on_channel_ctrl_response, is_protocol_error.
  destruct obj; cbn; try (intros [msg H]; discriminate).
  repeat match goal with
         | |- context [if ?c then _ else _] => destruct c; cbn
         | |- context [match dict_get ?d ?k with _ => _ end] =>
             destruct (dict_get d k); cbn
         end;
    intros [msg H]; discriminate.
Qed.

Lemma _feed_buffer_channels (s s1 : USBProtocol) (r : result unit) :
  _feed_buffer s = (r, s1) ->
  channels s1 = channels s /\ tx_log s1 = tx_log s /\
  chl_semaphore s1 = chl_semaphore s /\ running s1 = running s.
Proof.
  unfold _feed_buffer, bind, modify, _recv, rx_read.
  destruct (rx_script s) as [|[data|e] rest];
    repeat match goal with
           | |- context [if ?c then _ else _] => destruct c
           end;
    intros [= <- <-]; cbn; auto.
Qed.

Lemma _unpack_buffer_channels (s s1 : USBProtocol) (d : unpacked) :
  _unpack_buffer s = (Ok d, s1) ->
  unpack_buffer (_buf s) = (d, _buf s1) /\
  channels s1 = channels s /\ tx_log s1 = tx_log s /\
  chl_semaphore s1 = chl_semaphore s /\ running s1 = running s.
Proof.
  unfold _unpack_buffer.
  destruct (unpack_buffer (_buf s)) as [d' rest].
  intros [= <- <-]. cbn. auto.
Qed.

Lemma run_loop_ends_stopped (fuel : nat) (s s' : USBProtocol)
  (r : result unit) :
  run_loop fuel s = Some (r, s') -> running s' = false.
Proof.
  revert s. induction fuel as [|fuel IH]; intros s; cbn [run_loop];
    [discriminate|].
  destruct (running s) eqn:Hrun.
  - destruct (run_once s) as [[u|e] s1].
    + apply IH.
    + intros [= <- <-]. reflexivity.
  - intros [= <- <-]. exact Hrun.
Qed.

(** C8 (as the code has it). Once the read of an iteration has returned
    (with bytes or empty), what the iteration does is decided by the
    extraction from the buffer, which may still hold frames of earlier
    reads: the iteration raises a protocol error exactly when the
    extracted item is a zero-size marker, a data frame without a registered
    channel, a data frame with a terminator other than 0xF0, 0xFF and 0xC0,
    a control-response frame with a terminator other than 0xF0, or a frame
    on any other channel id; when nothing can be extracted the iteration
    ends without dispatch and without error; and any error of an iteration
    ends [run] with that error and [running] cleared. *)
Theorem run_once_outcomes (s s1 s2 : USBProtocol) (d : unpacked) :
  _feed_buffer s = (Ok tt, s1) ->
  _unpack_buffer s1 = (Ok d, s2) ->
  (is_protocol_error (fst (run_once s)) <-> protocol_violation (channels s) d) /\
  (d = NeedMoreData ->
   run_once s = (Ok tt, s2) /\ _buf s2 = _buf s1 /\
   channels s2 = channels s /\ chl_semaphore s2 = chl_semaphore s /\
   tx_log s2 = tx_log s) /\
  (forall fuel e s',
      run_once (set_running true s) = (Err e, s') ->
      run (S fuel) s = Some (Err e, set_running false s')) /\
  (forall fuel e s',
      run fuel s = Some (Err e, s') -> running s' = false).
Proof.
  intros Hfeed Hunpack.
  pose proof (_feed_buffer_channels _ _ _ Hfeed) as (Hch1 & Hlog1 & Hsem1 & _).
  pose proof (_unpack_buffer_channels _ _ _ Hunpack)
    as (Hd & Hch2 & Hlog2 & Hsem2 & _).
  split; [|split; [|split]].
  - unfold run_once, bind. rewrite Hfeed, Hunpack. rewrite <- Hch1, <- Hch2.
    destruct d as [| |channel_idx buf fin]; cbn [protocol_violation].
    + cbn. split; [intros [msg H]; discriminate|tauto].
    + cbn. split; [tauto|]. intros _. eexists. reflexivity.
    + destruct (Z.ltb_spec channel_idx 0x80) as [Hlt|Hge].
      * destruct (dict_get (channels s2) (VInt channel_idx)) as [channel|] eqn:Hget.
        -- destruct (Z.eqb_spec fin 0xf0) as [Hf0|Hf0].
           { destruct (unpackb buf) as [obj|]; cbn [fst update_channel modify];
               (split; [intros [msg H]; discriminate|]);
               intros [[_ H]|[(_ & H & _)|[[H _]|[H _]]]];
               try discriminate; try lia; contradiction. }
           destruct (Z.eqb_spec fin 0xff) as [Hff|Hff].
           { split.
             - intros Herr. exfalso.
               pose proof (_send_binary_ack_not_protocol_error channel_idx s2) as Hno.
               unfold bind in Herr.
               destruct (_send_binary_ack channel_idx s2) as [[u|e] s3];
                 cbn [fst] in *; [|contradiction].
               destruct Herr as [msg H]. discriminate.
             - intros [[_ H]|[(_ & _ & H & _)|[[H _]|[H _]]]];
                 try discriminate; try lia; contradiction. }
           destruct (Z.eqb_spec fin 0xc0) as [Hc0|Hc0].
           { cbn [fst update_channel modify].
             split; [intros [msg H]; discriminate|].
             intros [[_ H]|[(_ & _ & _ & H)|[[H _]|[H _]]]];
               try discriminate; try lia; contradiction. }
           cbn [fst]. split; [|intros _; eexists; reflexivity].
           intros _. right. left. auto.
        -- cbn [fst]. split; [|intros _; eexists; reflexivity].
           intros _. left. auto.
      * destruct (Z.eqb_spec channel_idx 0xf1) as [Hf1|Hf1].
        -- destruct (Z.eqb_spec fin 0xf0) as [Hf0|Hf0]; cbn [negb].
           { split.
             - intros Herr. exfalso.
               destruct (unpackb buf) as [obj|].
               + exact (_on_channel_ctrl_response_not_protocol_error _ _ Herr).
               + destruct Herr as [msg H]. discriminate.
             - intros [[H _]|[[H _]|[[_ H]|[_ H]]]]; try lia; contradiction. }
           cbn [fst raise]. split; [|intros _; eexists; reflexivity].
           intros _. right. right. left. auto.
        -- cbn [fst raise]. split; [|intros _; eexists; reflexivity].
           intros _. right. right. right. auto.
  - intros ->. unfold run_once, bind. rewrite Hfeed, Hunpack.
    pose proof (unpack_buffer_need_more (_buf s1)) as Hsame.
    rewrite Hd in Hsame. specialize (Hsame eq_refl). injection Hsame as Hbuf.
    repeat split; congruence.
  - intros fuel e s' Hone. unfold run. cbn [run_loop].
    replace (running (set_running true s)) with true by reflexivity.
    rewrite Hone. reflexivity.
  - intros fuel e s'. unfold run. apply run_loop_ends_stopped.
Qed.

(** * Values and dictionaries *)

Lemma bytes_eqb_refl (x : bytes) : bytes_eqb x x = true.
Proof. apply bytes_eqb_eq. reflexivity. Qed.

Lemma value_eqb_refl : forall a : value, value_eqb a a = true.
Proof.
  fix IH 1.
  intros [ | x | x | x | x | l | m]; cbn [value_eqb].
  - reflexivity.
  - apply Bool.eqb_reflx.
  - apply Z.eqb_refl.
  - apply String.eqb_refl.
  - apply bytes_eqb_refl.
  - induction l as [|v l IHl]; [reflexivity|].
    rewrite (IH v), IHl. reflexivity.
  - induction m as [|[k v] m IHm]; [reflexivity|].
    rewrite (IH k), (IH v), IHm. reflexivity.
Qed.

Lemma value_eqb_iff (a c : value) : value_eqb a c = true <-> a = c.
Proof.
  split; [apply value_eqb_eq|]. intros ->. apply value_eqb_refl.
Qed.

Lemma value_eqb_neq (a c : value) : a <> c -> value_eqb a c = false.
Proof.
  intros Hne. destruct (value_eqb a c) eqn:H; [|reflexivity].
  apply value_eqb_eq in H. contradiction.
Qed.

Lemma dict_get_set_same {V} (d : dict V) (k : value) (v : V) :
  dict_get (dict_set d k v) k = Some v.
Proof.
  induction d as [|[k' v'] d IH]; cbn [dict_set dict_get].
  - rewrite value_eqb_refl. reflexivity.
  - destruct (value_eqb k' k) eqn:Hk; cbn [dict_get]; rewrite Hk; auto.
Qed.









(** * Frame codec: what extraction keeps and drops *)

Lemma set_buf_set_buf (x y : bytes) (s : USBProtocol) :
  set_buf x (set_buf y s) = set_buf x s.
Proof. reflexivity. Qed.

Lemma pack_frame_Some_range (channel : Z) (payload : bytes) (fin : byte)
  (buf : bytes) :
  pack_frame channel payload fin = Some buf ->
  0 <= channel <= 255 /\ len payload + 4 <= 65535.
Proof.
  intros H. destruct (pack_frame_Some _ _ _ _ H) as (lo & hi & c & _ & Hs & Hc).
  pose proof (Z_of_byte_range lo). pose proof (Z_of_byte_range hi).
  pose proof (Z_of_byte_range c). lia.
Qed.

Lemma unpack_buffer_packed (channel : Z) (payload : bytes) (fin : byte)
  (packed rest : bytes) :
  pack_frame channel payload fin = Some packed ->
  unpack_buffer (packed ++ rest) = (Frame channel payload (Z_of_byte fin), rest).
Proof.
  intros H. destruct (pack_frame_Some _ _ _ _ H) as (lo & hi & c & -> & Hs & <-).
  cbn [app]. rewrite <- app_assoc. cbn [app].
  apply unpack_buffer_frame. exact Hs.
Qed.

(** X1. Decoding then encoding. A frame extracted from a buffer whose header
    announces at least four bytes packs again to exactly the bytes that
    were taken from the front of the buffer. *)
Theorem unpack_pack_roundtrip (buf rest payload : bytes) (channel_idx fin : Z) :
  unpack_buffer buf = (Frame channel_idx payload fin, rest) ->
  4 <= len buf - len rest ->
  exists f packed,
    byte_of_Z fin = Some f /\
    pack_frame channel_idx payload f = Some packed /\
    buf = packed ++ rest.
Proof.
  intros H Hfour. pose proof H as H'. unfold unpack_buffer in H'.
  destruct (Z.gtb_spec (len buf) 3) as [Hl|_]; [|discriminate].
  destruct buf as [|lo [|hi [|c tail]]]; try (unfold len in Hl; cbn in Hl; lia).
  change (firstn 3 (lo :: hi :: c :: tail)) with [lo; hi; c] in H'.
  cbn [HEAD_PACKER_unpack] in H'.
  pose proof (Z_of_byte_range lo) as Hlo. pose proof (Z_of_byte_range hi) as Hhi.
  remember (Z_of_byte lo + 256 * Z_of_byte hi) as size eqn:Esize.
  destruct (Z.eqb_spec size 0) as [_|Hnz]; [discriminate|].
  destruct (Z.geb_spec (len (lo :: hi :: c :: tail)) size) as [Hge|_];
    [|discriminate].
  assert (Hrest : rest = slice_from (lo :: hi :: c :: tail) size) by congruence.
  assert (Hsize4 : 4 <= size).
  { rewrite Hrest in Hfour. unfold slice_from, len in Hfour, Hge.
    rewrite length_skipn in Hfour. lia. }
  clear H'.
  set (n := Z.to_nat (size - 4)).
  assert (Hn : (n < length tail)%nat).
  { unfold len in Hge. cbn [length] in Hge. unfold n. lia. }
  assert (Htail : tail = firstn n tail ++ skipn n tail)
    by (symmetry; apply firstn_skipn).
  destruct (skipn n tail) as [|f r] eqn:Hskip.
  { apply (f_equal (@length byte)) in Hskip. rewrite length_skipn in Hskip.
    cbn [length] in Hskip. lia. }
  assert (Hlenp : length (firstn n tail) = n) by (apply firstn_length_le; lia).
  assert (Hsz : Z_of_byte lo + 256 * Z_of_byte hi = len (firstn n tail) + 4).
  { unfold len. rewrite Hlenp, <- Esize. unfold n. lia. }
  rewrite Htail in H.
  rewrite (unpack_buffer_frame lo hi c f (firstn n tail) r Hsz) in H.
  injection H as Hc Hp Hf Hr.
  exists f, (lo :: hi :: c :: firstn n tail ++ [f]).
  split; [rewrite <- Hf; apply byte_of_Z_of_byte|]. split.
  - rewrite <- Hc, <- Hp. unfold pack_frame, HEAD_PACKER_pack.
    rewrite <- Hsz.
    replace ((Z_of_byte lo + 256 * Z_of_byte hi) mod 256) with (Z_of_byte lo)
      by (apply Z.mod_unique with (q := Z_of_byte hi); lia).
    replace ((Z_of_byte lo + 256 * Z_of_byte hi) / 256) with (Z_of_byte hi)
      by (apply Z.div_unique with (r := Z_of_byte lo); lia).
    rewrite !byte_of_Z_of_byte. reflexivity.
  - rewrite <- Hr. cbn [app]. rewrite <- app_assoc. cbn [app].
    rewrite <- Htail. reflexivity.
Qed.

(** X2. Extraction only drops a prefix of the buffer: nothing when it needs
    more data, two bytes for a zero-size marker, and for a frame at least
    one byte, four more than the payload is long whenever the payload is
    not empty. *)
Theorem unpack_buffer_drops_prefix (buf rest : bytes) (d : unpacked) :
  unpack_buffer buf = (d, rest) ->
  exists consumed,
    buf = consumed ++ rest /\
    match d with
    | NeedMoreData => consumed = []
    | ZeroMarker => length consumed = 2%nat
    | Frame _ payload _ =>
        (1 <= length consumed)%nat /\
        length payload = (length consumed - 4)%nat
    end.
Proof.
  unfold unpack_buffer.
  destruct (Z.gtb_spec (len buf) 3) as [Hl|_];
    [|intros [= <- <-]; exists []; auto].
  destruct buf as [|lo [|hi [|c tail]]]; try (unfold len in Hl; cbn in Hl; lia).
  change (firstn 3 (lo :: hi :: c :: tail)) with [lo; hi; c].
  cbn [HEAD_PACKER_unpack].
  pose proof (Z_of_byte_range lo) as Hlo. pose proof (Z_of_byte_range hi) as Hhi.
  remember (Z_of_byte lo + 256 * Z_of_byte hi) as size eqn:Esize.
  destruct (Z.eqb_spec size 0) as [_|Hnz].
  { intros [= <- <-]. exists [lo; hi]. split; reflexivity. }
  destruct (Z.geb_spec (len (lo :: hi :: c :: tail)) size) as [Hge|_];
    [|intros [= <- <-]; exists []; auto].
  intros [= <- <-].
  exists (firstn (Z.to_nat size) (lo :: hi :: c :: tail)).
  unfold slice_from, slice. split; [symmetry; apply firstn_skipn|].
  unfold len in Hge. cbn [length] in Hge.
  rewrite firstn_length_le by (cbn [length]; lia).
  split; [lia|].
  change (Z.to_nat 3) with 3%nat. cbn [skipn].
  rewrite firstn_length_le by lia. lia.
Qed.

Lemma last_frame_cons (channel : Z) (payload : bytes) (fin : byte)
  (frames : list (Z * bytes * byte)) (data : option unpacked) :
  last_frame ((channel, payload, fin) :: frames) data =
    last_frame frames (Some (Frame channel payload (Z_of_byte fin))).
Proof.
  unfold last_frame. cbn [rev].
  destruct (rev frames) as [|[[ch p] f] l]; reflexivity.
Qed.

(** X3. The inner loop of the handshake. When the buffer holds whole frames
    followed by bytes from which nothing can be extracted, the loop takes
    all the frames out, keeps only the last one (the frames before it are
    dropped unseen) and leaves the trailing bytes in the buffer. *)
Theorem drain_keeps_last_frame (frames : list (Z * bytes * byte))
  (buf tail : bytes) (data : option unpacked) (s : USBProtocol) (fuel : nat) :
  pack_frames frames = Some buf ->
  _buf s = buf ++ tail ->
  fst (unpack_buffer tail) = NeedMoreData ->
  (length frames < fuel)%nat ->
  drain fuel data s = Some (last_frame frames data, set_buf tail s).
Proof.
  intros Hpack Hbuf Htail. revert buf data s fuel Hpack Hbuf.
  induction frames as [|[[ch p] f] frames IH]; intros buf data s fuel Hpack Hbuf Hfuel;
    (destruct fuel as [|fuel]; [cbn [length] in Hfuel; lia|]).
  - injection Hpack as <-. cbn [app] in Hbuf.
    cbn [drain]. unfold _unpack_buffer. rewrite Hbuf.
    rewrite (unpack_buffer_need_more _ Htail). reflexivity.
  - cbn [pack_frames] in Hpack.
    destruct (pack_frame ch p f) as [fr|] eqn:Hfr; [|discriminate].
    destruct (pack_frames frames) as [bs|] eqn:Hbs; [|discriminate].
    injection Hpack as <-.
    cbn [drain]. unfold _unpack_buffer. rewrite Hbuf, <- app_assoc.
    rewrite (unpack_buffer_packed _ _ _ _ _ Hfr).
    rewrite last_frame_cons.
    rewrite (IH bs _ (set_buf (bs ++ tail) s) fuel eq_refl eq_refl)
      by (cbn [length] in Hfuel; lia).
    reflexivity.
Qed.

(** * Senders: the size limit *)

Lemma _send_not_StructError (buf : bytes) (s : USBProtocol) :
  fst (_send buf s) <> Err StructError.
Proof.
  unfold _send, tx_write.
  destruct (tx_script s) as [|[u|e] rest]; cbn [fst]; try discriminate.
  destruct (is_timeout e); discriminate.
Qed.

(** X4. [send_binary] raises [struct.error] exactly when the channel is not in
    0..255 or the block is longer than 65531 bytes, and then nothing is
    written and the session is as before. *)
Theorem send_binary_size_limit (channel : Z) (buf : bytes) (s : USBProtocol) :
  (fst (send_binary channel buf s) = Err StructError <->
   ~ (0 <= channel <= 255 /\ len buf <= 65531)) /\
  (fst (send_binary channel buf s) = Err StructError ->
   send_binary channel buf s = (Err StructError, s)).
Proof.
  unfold send_binary.
  destruct (pack_frame channel buf xbf) as [packed|] eqn:Hp.
  - apply pack_frame_Some_range in Hp. split.
    + split; [|intros Hn; exfalso; apply Hn; lia].
      intros H. exfalso. exact (_send_not_StructError _ _ H).
    + intros H. exfalso. exact (_send_not_StructError _ _ H).
  - split; [|reflexivity]. split; [|reflexivity].
    intros _ [Hc Hl].
    destruct (pack_frame_total channel buf xbf Hc) as [x Hx]; [lia|congruence].
Qed.

(** * Handshake: offer, confirmation, markers *)

Lemma _send_accepted_eq (buf : bytes) (s : USBProtocol) :
  writes_accepted (tx_script s) ->
  _send buf s = (Ok tt, set_tx (tl (tx_script s)) (tx_log s ++ [buf]) s).
Proof.
  unfold _send, tx_write, writes_accepted. intros Hall.
  destruct (tx_script s) as [|r rest]; [reflexivity|].
  inversion Hall as [|? ? Hr Hrest]; subst. reflexivity.
Qed.

Lemma writes_accepted_tl (script : list (usb_result unit)) :
  writes_accepted script -> writes_accepted (tl script).
Proof.
  unfold writes_accepted. intros H. destruct script; [exact H|].
  inversion H; assumption.
Qed.

Lemma byte_of_Z_inj (c : byte) (z : Z) (c' : byte) :
  Z_of_byte c = z -> byte_of_Z z = Some c' -> c = c'.
Proof.
  intros <- H. rewrite byte_of_Z_of_byte in H. congruence.
Qed.

Lemma send_object_accepted (channel : Z) (obj : value) (s : USBProtocol) :
  writes_accepted (tx_script s) ->
  0 <= channel <= 255 ->
  len (packb obj) + 4 <= 65535 ->
  exists lo hi c,
    Z_of_byte c = channel /\
    Z_of_byte lo + 256 * Z_of_byte hi = len (packb obj) + 4 /\
    send_object channel obj s =
      (Ok tt, set_tx (tl (tx_script s))
                (tx_log s ++ [lo :: hi :: c :: packb obj ++ [xb0]]) s).
Proof.
  intros Hw Hc Hl. unfold send_object.
  destruct (pack_frame_total channel (packb obj) xb0 Hc Hl) as [buf Hbuf].
  rewrite Hbuf.
  destruct (pack_frame_Some _ _ _ _ Hbuf) as (lo & hi & c & -> & Hs & Hch).
  exists lo, hi, c. split; [exact Hch|]. split; [exact Hs|].
  apply _send_accepted_eq. exact Hw.
Qed.

(** One pass of the handshake loop that reads exactly one frame into an
    empty buffer: the read and the inner loop. *)
Lemma handshake_reads_one_frame (s : USBProtocol) (f : bytes)
  (rest : list (usb_result bytes)) (channel : Z) (payload : bytes) (fin : byte) :
  _buf s = [] ->
  rx_script s = usb_ok f :: rest ->
  pack_frame channel payload fin = Some f ->
  _feed_buffer s = (Ok tt, set_buf f (set_rx_script rest s)) /\
  drain (S (length f)) None (set_buf f (set_rx_script rest s)) =
    Some (Some (Frame channel payload (Z_of_byte fin)),
          set_buf [] (set_rx_script rest s)).
Proof.
  intros Hbuf Hrx Hpack. split.
  - unfold _feed_buffer, bind, modify, _recv, rx_read. rewrite Hrx.
    cbn [_buf set_rx_script]. rewrite Hbuf. reflexivity.
  - rewrite (drain_keeps_last_frame [(channel, payload, fin)] f [] None
               (set_buf f (set_rx_script rest s)) (S (length f))).
    + reflexivity.
    + cbn [pack_frames]. rewrite Hpack, app_nil_r. reflexivity.
    + cbn [_buf set_buf]. rewrite app_nil_r. reflexivity.
    + reflexivity.
    + destruct (pack_frame_Some _ _ _ _ Hpack) as (lo & hi & c & -> & _).
      cbn [length]. lia.
Qed.

(** X5. The offer. A pass that reads one object frame on channel 0xFF stores
    the session of the offer (or "?" when the offer has none) and the
    other fields as the endpoint profile, answers on channel 0xFE with
    that session and the client name, and costs no retry. *)
Theorem handshake_offer (s : USBProtocol) (f offer : bytes)
  (rest : list (usb_result bytes)) (data : dict value) (fuel : nat) (ttl : Z) :
  _buf s = [] ->
  rx_script s = usb_ok f :: rest ->
  pack_frame 0xff offer xf0 = Some f ->
  unpackb_utf8 offer = Some (VMap data) ->
  writes_accepted (tx_script s) ->
  let session' :=
    match dict_get data (VStr "session") with
    | Some v => v
    | None => VStr "?"
    end in
  let ack := VMap [(VStr "session", session');
                   (VStr "client", VStr ("fluxclient-" ++ __version__))] in
  len (packb ack) + 4 <= 65535 ->
  ttl <> 0 ->
  exists lo hi,
    Z_of_byte lo + 256 * Z_of_byte hi = len (packb ack) + 4 /\
    do_handshake_loop (S fuel) ttl s =
      do_handshake_loop fuel ttl
        (set_tx (tl (tx_script s))
           (tx_log s ++ [lo :: hi :: xfe :: packb ack ++ [xb0]])
           (set_session session'
              (set_endpoint_profile
                 (Some (dict_remove data (VStr "session")))
                 (set_buf [] (set_rx_script rest s))))).
Proof.
  intros Hbuf Hrx Hpack Hdec Hw session' ack Hlen Httl.
  destruct (handshake_reads_one_frame s f rest _ _ _ Hbuf Hrx Hpack)
    as [Hfeed Hdrain].
  set (s2 := set_buf [] (set_rx_script rest s)) in *.
  set (s3 := set_session session'
               (set_endpoint_profile
                  (Some (dict_remove data (VStr "session"))) s2)).
  destruct (send_object_accepted 0xfe ack s3) as (lo & hi & c & Hc & Hs & Hsend);
    [exact Hw | lia | exact Hlen |].
  assert (c = xfe) as -> by (apply (byte_of_Z_inj c 0xfe); [exact Hc|reflexivity]).
  exists lo, hi. split; [exact Hs|].
  cbn [do_handshake_loop].
  destruct (Z.eqb_spec ttl 0) as [|_]; [contradiction|].
  rewrite Hfeed. cbn [_buf set_buf]. rewrite Hdrain.
  replace ((255 =? 255) && (Z_of_byte xf0 =? 240)) with true by reflexivity.
  unfold _handle_handshake. rewrite Hdec. fold session'. fold ack.
  unfold bind, modify. fold s3. rewrite Hsend. reflexivity.
Qed.

(** X6. The confirmation. With a session stored, a pass that reads one object
    frame on channel 0xFD carrying the same session ends the handshake
    with [True]; nothing is written. *)
Theorem handshake_confirmed (s : USBProtocol) (f confirm : bytes)
  (rest : list (usb_result bytes)) (cdata : dict value) (fuel : nat) (ttl : Z) :
  _buf s = [] ->
  rx_script s = usb_ok f :: rest ->
  pack_frame 0xfd confirm xf0 = Some f ->
  session s <> VNone ->
  unpackb_utf8 confirm = Some (VMap cdata) ->
  dict_get cdata (VStr "session") = Some (session s) ->
  ttl <> 0 ->
  do_handshake_loop (S fuel) ttl s =
    Some (Ok true, set_buf [] (set_rx_script rest s)).
Proof.
  intros Hbuf Hrx Hpack Hsess Hdec Hget Httl.
  destruct (handshake_reads_one_frame s f rest _ _ _ Hbuf Hrx Hpack)
    as [Hfeed Hdrain].
  cbn [do_handshake_loop].
  destruct (Z.eqb_spec ttl 0) as [|_]; [contradiction|].
  rewrite Hfeed. cbn [_buf set_buf]. rewrite Hdrain.
  replace ((253 =? 255) && (Z_of_byte xf0 =? 240)) with false by reflexivity.
  replace ((253 =? 253) && (Z_of_byte xf0 =? 240)) with true by reflexivity.
  cbn [session set_buf set_rx_script].
  rewrite (value_eqb_neq _ _ Hsess). cbn [negb].
  unfold _final_handshake. rewrite Hdec, Hget.
  cbn [session set_buf set_rx_script]. rewrite value_eqb_refl. reflexivity.
Qed.


(** X8. A confirmation before any offer. Without a stored session the frame
    on channel 0xFD is not even decoded (its payload may be anything): the
    pass costs a retry and a ping goes out. *)
Theorem handshake_early_confirmation (s : USBProtocol) (f confirm : bytes)
  (rest : list (usb_result bytes)) (fuel : nat) (ttl : Z) :
  _buf s = [] ->
  rx_script s = usb_ok f :: rest ->
  pack_frame 0xfd confirm xf0 = Some f ->
  session s = VNone ->
  writes_accepted (tx_script s) ->
  len (packb VNone) + 4 <= 65535 ->
  ttl <> 0 ->
  exists lo hi,
    Z_of_byte lo + 256 * Z_of_byte hi = len (packb VNone) + 4 /\
    do_handshake_loop (S fuel) ttl s =
      do_handshake_loop fuel (ttl - 1)
        (set_tx (tl (tx_script s))
           (tx_log s ++ [lo :: hi :: xfc :: packb VNone ++ [xb0]])
           (set_buf [] (set_rx_script rest s))).
Proof.
  intros Hbuf Hrx Hpack Hsess Hw Hlen Httl.
  destruct (handshake_reads_one_frame s f rest _ _ _ Hbuf Hrx Hpack)
    as [Hfeed Hdrain].
  set (s2 := set_buf [] (set_rx_script rest s)) in *.
  destruct (send_object_accepted 0xfc VNone s2)
    as (lo & hi & c & Hc & Hs & Hsend); [exact Hw | lia | exact Hlen |].
  assert (c = xfc) as -> by (apply (byte_of_Z_inj c 0xfc); [exact Hc|reflexivity]).
  exists lo, hi. split; [exact Hs|].
  cbn [do_handshake_loop].
  destruct (Z.eqb_spec ttl 0) as [|_]; [contradiction|].
  rewrite Hfeed. cbn [_buf set_buf]. rewrite Hdrain.
  replace ((253 =? 255) && (Z_of_byte xf0 =? 240)) with false by reflexivity.
  replace ((253 =? 253) && (Z_of_byte xf0 =? 240)) with true by reflexivity.
  replace (session s2) with (session s) by reflexivity.
  rewrite Hsess. cbn [value_eqb negb]. rewrite Hsend. reflexivity.
Qed.

(** X9. Offer, then confirmation. When the peer's offer and its confirmation
    of the same session arrive in two reads, the handshake returns [True]
    in two passes: the session and the profile of the offer are stored,
    the only frame written is the answer on channel 0xFE, and no ping is
    sent. *)
Theorem handshake_established (s : USBProtocol) (f1 f2 offer confirm : bytes)
  (rest : list (usb_result bytes)) (data cdata : dict value) (sess : value)
  (fuel : nat) :
  _buf s = [] ->
  rx_script s = usb_ok f1 :: usb_ok f2 :: rest ->
  pack_frame 0xff offer xf0 = Some f1 ->
  pack_frame 0xfd confirm xf0 = Some f2 ->
  unpackb_utf8 offer = Some (VMap data) ->
  dict_get data (VStr "session") = Some sess ->
  sess <> VNone ->
  unpackb_utf8 confirm = Some (VMap cdata) ->
  dict_get cdata (VStr "session") = Some sess ->
  writes_accepted (tx_script s) ->
  let ack := VMap [(VStr "session", sess);
                   (VStr "client", VStr ("fluxclient-" ++ __version__))] in
  len (packb ack) + 4 <= 65535 ->
  (2 <= fuel)%nat ->
  exists lo hi s',
    do_handshake fuel s = Some (Ok true, s') /\
    session s' = sess /\
    endpoint_profile s' = Some (dict_remove data (VStr "session")) /\
    tx_log s' = tx_log s ++ [lo :: hi :: xfe :: packb ack ++ [xb0]] /\
    _buf s' = [] /\ rx_script s' = rest.
Proof.
  intros Hbuf Hrx Hp1 Hp2 Hd1 Hg1 Hsess Hd2 Hg2 Hw ack Hlen Hfuel.
  destruct fuel as [|[|fuel]]; try lia.
  unfold do_handshake.
  destruct (handshake_offer s f1 offer (usb_ok f2 :: rest) data (S fuel) 5
              Hbuf Hrx Hp1 Hd1 Hw) as (lo & hi & _ & Hloop).
  { rewrite Hg1. exact Hlen. }
  { lia. }
  rewrite Hg1 in Hloop. fold ack in Hloop. rewrite Hloop.
  eexists lo, hi, _. split.
  - apply (handshake_confirmed _ f2 confirm rest cdata fuel 5);
      try reflexivity; try assumption; lia.
  - cbn. auto.
Qed.

Lemma zero_marker_pass (s : USBProtocol) (rest : list (usb_result bytes))
  (fuel : nat) (ttl : Z) :
  _buf s = [] \/ _buf s = [x00; x00] ->
  rx_script s = usb_ok [x00; x00; x00; x00] :: rest ->
  ttl <> 0 ->
  do_handshake_loop (S fuel) ttl s =
    do_handshake_loop fuel ttl (set_buf [x00; x00] (set_rx_script rest s)).
Proof.
  intros Hbuf Hrx Httl. cbn [do_handshake_loop].
  destruct (Z.eqb_spec ttl 0) as [|_]; [contradiction|].
  unfold _feed_buffer, bind, modify, _recv, rx_read. rewrite Hrx.
  cbn [_buf set_rx_script set_buf].
  destruct Hbuf as [-> | ->]; reflexivity.
Qed.

(** X10. Zero-size markers stall the handshake. While the peer sends zero-size
    headers the loop goes round without writing anything and without
    spending a retry: after [n] such reads the retry budget, the session
    and the log of written frames are what they were. *)
Theorem handshake_zero_markers_cost_nothing (n : nat) (s : USBProtocol)
  (rest : list (usb_result bytes)) (fuel : nat) (ttl : Z) :
  _buf s = [] \/ _buf s = [x00; x00] ->
  rx_script s = repeat (usb_ok [x00; x00; x00; x00]) n ++ rest ->
  ttl <> 0 ->
  exists s',
    do_handshake_loop (n + fuel) ttl s = do_handshake_loop fuel ttl s' /\
    rx_script s' = rest /\ tx_script s' = tx_script s /\
    tx_log s' = tx_log s /\ session s' = session s.
Proof.
  intros Hbuf Hrx Httl. revert s Hbuf Hrx.
  induction n as [|n IH]; intros s Hbuf Hrx.
  - exists s. cbn in Hrx. auto.
  - cbn [repeat app] in Hrx.
    destruct (IH (set_buf [x00; x00]
                    (set_rx_script (repeat (usb_ok [x00; x00; x00; x00]) n ++ rest) s)))
      as (s' & Hloop & Hrx' & Htx' & Hlog' & Hsess'); [right; reflexivity | reflexivity |].
    exists s'. split; [|auto].
    change (S n + fuel)%nat with (S (n + fuel)).
    rewrite (zero_marker_pass s _ (n + fuel) ttl Hbuf Hrx Httl). exact Hloop.
Qed.

(** * Handshake: it always ends *)

Lemma send_object_keeps_input (channel : Z) (obj : value) (s s' : USBProtocol)
  (r : result unit) :
  send_object channel obj s = (r, s') ->
  _buf s' = _buf s /\ rx_script s' = rx_script s.
Proof.
  unfold send_object.
  destruct (pack_frame channel (packb obj) xb0) as [buf|];
    [|intros [= <- <-]; auto].
  unfold _send, tx_write.
  destruct (tx_script s) as [|[u|e] rest];
    try destruct (is_timeout e); intros [= <- <-]; auto.
Qed.

Lemma _handle_handshake_keeps_input (buf : bytes) (s s' : USBProtocol)
  (r : result unit) :
  _handle_handshake buf s = (r, s') ->
  _buf s' = _buf s /\ rx_script s' = rx_script s.
Proof.
  unfold _handle_handshake.
  destruct (unpackb_utf8 buf) as [[ | | | | | | data]|];
    try (intros [= <- <-]; auto).
  unfold bind, modify. intros H.
  apply send_object_keeps_input in H. exact H.
Qed.

Lemma _final_handshake_keeps_input (buf : bytes) (s s' : USBProtocol)
  (r : result bool) :
  _final_handshake buf s = (r, s') ->
  _buf s' = _buf s /\ rx_script s' = rx_script s.
Proof.
  unfold _final_handshake.
  destruct (unpackb_utf8 buf) as [[ | | | | | | data]|];
    try (intros [= <- <-]; auto).
  destruct (dict_get data (VStr "session")) as [v|]; [|intros [= <- <-]; auto].
  destruct (value_eqb v (session s)); intros [= <- <-]; auto.
Qed.

Lemma _feed_buffer_script (s s1 : USBProtocol) :
  _feed_buffer s = (Ok tt, s1) ->
  length (rx_script s1) = (length (rx_script s) - 1)%nat /\
  (rx_script s = [] -> _buf s1 = _buf s).
Proof.
  unfold _feed_buffer, bind, modify, _recv, rx_read.
  destruct (rx_script s) as [|[data|e] rest] eqn:Hrx.
  - unfold is_timeout. cbn [usb_errno]. rewrite Z.eqb_refl.
    intros [= <-]. cbn [rx_script _buf set_buf]. rewrite app_nil_r, Hrx.
    split; reflexivity.
  - intros [= <-]. cbn [rx_script _buf set_buf set_rx_script length].
    split; [lia|discriminate].
  - destruct (is_timeout e); [|discriminate].
    intros [= <-]. cbn [rx_script _buf set_buf set_rx_script length].
    split; [lia|discriminate].
Qed.

Lemma drain_leaves_nothing (fuel : nat) (data d : option unpacked)
  (s s' : USBProtocol) :
  drain fuel data s = Some (d, s') ->
  fst (unpack_buffer (_buf s')) = NeedMoreData /\ rx_script s' = rx_script s.
Proof.
  revert data s. induction fuel as [|fuel IH]; intros data s; [discriminate|].
  cbn [drain]. unfold _unpack_buffer.
  destruct (unpack_buffer (_buf s)) as [x rest] eqn:Hx.
  destruct x as [| |channel_idx buf fin].
  - intros [= <- <-]. cbn [_buf set_buf rx_script].
    pose proof (unpack_buffer_need_more (_buf s)) as Hsame.
    rewrite Hx in Hsame. specialize (Hsame eq_refl).
    injection Hsame as ->. rewrite Hx. auto.
  - intros H. apply IH in H. exact H.
  - intros H. apply IH in H. exact H.
Qed.

(** What one pass of the loop comes to: it returns, or it goes round once
    more with one retry less, or (only when something was extracted) with
    the same budget; the buffer and the coming reads are those left by the
    inner loop. *)
Lemma handshake_pass_cases (fuel : nat) (ttl : Z) (s s1 s2 : USBProtocol)
  (data : option unpacked) :
  ttl <> 0 ->
  _feed_buffer s = (Ok tt, s1) ->
  drain (S (length (_buf s1))) None s1 = Some (data, s2) ->
  (exists r, do_handshake_loop (S fuel) ttl s = Some r) \/
  (exists s3,
      do_handshake_loop (S fuel) ttl s = do_handshake_loop fuel (ttl - 1) s3 /\
      _buf s3 = _buf s2 /\ rx_script s3 = rx_script s2) \/
  (data <> None /\
   exists s3,
     do_handshake_loop (S fuel) ttl s = do_handshake_loop fuel ttl s3 /\
     _buf s3 = _buf s2 /\ rx_script s3 = rx_script s2).
Proof.
  intros Httl Hfeed Hdrain. cbn [do_handshake_loop].
  destruct (Z.eqb_spec ttl 0) as [|_]; [contradiction|].
  rewrite Hfeed, Hdrain.
  assert (Hretry : forall st,
             _buf st = _buf s2 -> rx_script st = rx_script s2 ->
             (exists r,
                 match send_object 252 VNone st with
                 | (Ok _, s') => do_handshake_loop fuel (ttl - 1) s'
                 | (Err e, s') => Some (Err e, s')
                 end = Some r) \/
             (exists s3,
                 match send_object 252 VNone st with
                 | (Ok _, s') => do_handshake_loop fuel (ttl - 1) s'
                 | (Err e, s') => Some (Err e, s')
                 end = do_handshake_loop fuel (ttl - 1) s3 /\
                 _buf s3 = _buf s2 /\ rx_script s3 = rx_script s2)).
  { intros st Hb Hr.
    destruct (send_object 252 VNone st) as [[u|e] s'] eqn:Hsend.
    - right. exists s'. apply send_object_keeps_input in Hsend as [H1 H2].
      split; [reflexivity|]. split; congruence.
    - left. eauto. }
  assert (Hwrap : forall st,
             _buf st = _buf s2 -> rx_script st = rx_script s2 ->
             forall X,
               X = match send_object 252 VNone st with
                   | (Ok _, s') => do_handshake_loop fuel (ttl - 1) s'
                   | (Err e, s') => Some (Err e, s')
                   end ->
               (exists r, X = Some r) \/
               (exists s3, X = do_handshake_loop fuel (ttl - 1) s3 /\
                           _buf s3 = _buf s2 /\ rx_script s3 = rx_script s2) \/
               (data <> None /\
                exists s3, X = do_handshake_loop fuel ttl s3 /\
                           _buf s3 = _buf s2 /\ rx_script s3 = rx_script s2)).
  { intros st Hb Hr X ->. destruct (Hretry st Hb Hr) as [H|H]; auto. }
  destruct data as [[| |channel_idx buf fin]|];
    try (apply (Hwrap s2 eq_refl eq_refl); reflexivity).
  - right. right. split; [discriminate|]. exists s2. auto.
  - destruct ((channel_idx =? 255) && (fin =? 240)).
    + destruct (_handle_handshake buf s2) as [[u|e] s3] eqn:Hh; [|left; eauto].
      apply _handle_handshake_keeps_input in Hh as [H1 H2].
      right. right. split; [discriminate|]. exists s3. auto.
    + destruct ((channel_idx =? 253) && (fin =? 240)).
      * destruct (negb (value_eqb (session s2) VNone));
          [|apply (Hwrap s2 eq_refl eq_refl); reflexivity].
        destruct (_final_handshake buf s2) as [[[|]|e] s3] eqn:Hf;
          [left; eauto | | left; eauto].
        apply _final_handshake_keeps_input in Hf as [H1 H2].
        apply (Hwrap s3 H1 H2). reflexivity.
      * right. right. split; [discriminate|]. exists s2. auto.
Qed.

Lemma do_handshake_loop_returns (fuel : nat) :
  forall (ttl : Z) (s : USBProtocol),
    0 <= ttl ->
    (fst (unpack_buffer (_buf s)) = NeedMoreData ->
     (length (rx_script s) + Z.to_nat ttl < fuel)%nat ->
     exists r, do_handshake_loop fuel ttl s = Some r) /\
    ((length (rx_script s) + Z.to_nat ttl + 1 < fuel)%nat ->
     exists r, do_handshake_loop fuel ttl s = Some r).
Proof.
  induction fuel as [|fuel IH]; intros ttl s Httl; [split; intros; lia|].
  assert (Hstep : forall clean : bool,
             (clean = true -> fst (unpack_buffer (_buf s)) = NeedMoreData) ->
             (length (rx_script s) + Z.to_nat ttl
              + (if clean then 0 else 1) < S fuel)%nat ->
             exists r, do_handshake_loop (S fuel) ttl s = Some r).
  { intros clean Hclean Hfuel.
    destruct (Z.eq_dec ttl 0) as [->|Hnz]; [cbn; eauto|].
    destruct (_feed_buffer s) as [[[]|e] s1] eqn:Hfeed.
    2:{ cbn [do_handshake_loop].
        destruct (Z.eqb_spec ttl 0) as [|_]; [contradiction|].
        rewrite Hfeed. eauto. }
    destruct (_feed_buffer_script _ _ Hfeed) as [Hlen Hempty].
    destruct (drain_terminates (S (length (_buf s1))) None s1) as [[data s2] Hdrain];
      [lia|].
    destruct (drain_leaves_nothing _ _ _ _ _ Hdrain) as [Hclean2 Hrx2].
    destruct (handshake_pass_cases fuel ttl s s1 s2 data Hnz Hfeed Hdrain)
      as [Hret | [(s3 & Heq & Hb3 & Hr3) | (Hdata & s3 & Heq & Hb3 & Hr3)]].
    - exact Hret.
    - rewrite Heq.
      apply (proj1 (IH (ttl - 1) s3 ltac:(lia))); [congruence|].
      rewrite Hr3, Hrx2, Hlen. destruct clean; lia.
    - rewrite Heq.
      apply (proj1 (IH ttl s3 Httl)); [congruence|].
      rewrite Hr3, Hrx2, Hlen.
      destruct (rx_script s) as [|x rest] eqn:Hscript.
      + destruct clean; [|cbn [length] in *; lia].
        exfalso. apply Hdata.
        rewrite (Hempty eq_refl) in Hdrain.
        rewrite (drain_nothing _ s1) in Hdrain
          by (rewrite (Hempty eq_refl); apply Hclean; reflexivity).
        congruence.
      + cbn [length] in *. destruct clean; lia. }
  split.
  - intros Hclean Hfuel. apply (Hstep true); [auto | lia].
  - intros Hfuel. apply (Hstep false); [discriminate | lia].
Qed.

(** X11. The handshake always ends once the peer has gone quiet: with [n] reads
    still to come before the endpoint only times out, [do_handshake]
    returns (with [True], with "Handshake failed." or with another
    exception) within [n + 7] passes of its loop. *)
Theorem do_handshake_returns (s : USBProtocol) :
  exists r, do_handshake (length (rx_script s) + 7) s = Some r.
Proof.
  unfold do_handshake.
  apply (proj2 (do_handshake_loop_returns (length (rx_script s) + 7) 5 s
                  ltac:(lia))).
  lia.
Qed.

(** * Control responses: open and close *)



(** X14. Responses that are only logged. A response whose action is not "open"
    and which is not a "close" with status "ok" changes nothing: a failed
    close leaves the index registered and an unknown action is ignored. *)
Theorem ctrl_response_ignored (m : dict value) (s : USBProtocol) :
  value_get m (VBytes (bytes_lit "action")) <> VBytes (bytes_lit "open") ->
  (value_get m (VBytes (bytes_lit "action")) = VBytes (bytes_lit "close") ->
   value_get m (VBytes (bytes_lit "status")) <> VBytes (bytes_lit "ok")) ->
  _on_channel_ctrl_response (VMap m) s = (Ok tt, s).
Proof.
  intros Hopen Hclose. unfold _on_channel_ctrl_response.
  rewrite (value_eqb_neq _ _ Hopen).
  destruct (value_eqb (value_get m (VBytes (bytes_lit "action")))
              (VBytes (bytes_lit "close"))) eqn:Hc; [|reflexivity].
  apply value_eqb_eq in Hc.
  rewrite (value_eqb_neq _ _ (Hclose Hc)). reflexivity.
Qed.


(** X16. The usual case of the index search. When the registered indices are
    exactly 0 .. n-1, [open_channel] asks for index n; on an empty map it
    asks for 0. *)
Theorem open_channel_idx_contiguous (chs : dict Channel) :
  (forall j, 0 <= j < len chs -> dict_get chs (VInt j) <> None) ->
  open_channel_idx chs = Some (len chs).
Proof.
  intros Hall.
  destruct (open_channel_idx_spec chs) as (i & Hidx & Hi & Hfree & _).
  rewrite Hidx. f_equal.
  destruct (Z.eq_dec i (len chs)) as [|Hne]; [assumption|].
  exfalso. apply (Hall i); [lia | exact Hfree].
Qed.

(** * Receive loop: dispatch *)

Lemma _feed_buffer_next (s : USBProtocol) (data : bytes) :
  next_read (rx_script s) = Some data ->
  _feed_buffer s =
    (Ok tt, set_buf (_buf s ++ data) (set_rx_script (tl (rx_script s)) s)).
Proof.
  unfold _feed_buffer, bind, modify, _recv, rx_read, next_read.
  destruct (rx_script s) as [|[d|e] rest] eqn:Hrx.
  - intros [= <-]. unfold is_timeout. cbn [usb_errno]. rewrite Z.eqb_refl.
    destruct s. cbn in *. subst. reflexivity.
  - intros [= <-]. reflexivity.
  - destruct (is_timeout e); [|discriminate]. intros [= <-]. reflexivity.
Qed.

(** The first two steps of an iteration that finds a whole frame at the
    front of the buffer once the bytes of its read are appended. *)
Lemma run_once_extracts (s : USBProtocol) (data f tail : bytes)
  (channel : Z) (payload : bytes) (fin : byte) :
  next_read (rx_script s) = Some data ->
  _buf s ++ data = f ++ tail ->
  pack_frame channel payload fin = Some f ->
  exists s1,
    _feed_buffer s = (Ok tt, s1) /\
    _unpack_buffer s1 =
      (Ok (Frame channel payload (Z_of_byte fin)),
       set_buf tail (set_rx_script (tl (rx_script s)) s)).
Proof.
  intros Hread Hbuf Hpack. eexists. split; [apply _feed_buffer_next; exact Hread|].
  unfold _unpack_buffer. cbn [_buf set_buf]. rewrite Hbuf.
  rewrite (unpack_buffer_packed _ _ _ _ _ Hpack). reflexivity.
Qed.

(** X17. Object frames. An iteration that finds an object frame for a
    registered channel at the front of the buffer (be it left there by an
    earlier read or completed by this one) appends the decoded object to
    the queue of that channel and releases one permit of its semaphore; it
    writes nothing and leaves the bytes after the frame in the buffer. *)
Theorem run_once_object (s : USBProtocol) (data f tail payload : bytes)
  (channel : Z) (c : Channel) (obj : value) :
  next_read (rx_script s) = Some data ->
  _buf s ++ data = f ++ tail ->
  pack_frame channel payload xf0 = Some f ->
  channel < 0x80 ->
  dict_get (channels s) (VInt channel) = Some c ->
  unpackb payload = Some obj ->
  run_once s =
    (Ok tt,
     set_channels (dict_set (channels s) (VInt channel) (on_object c obj))
       (set_buf tail (set_rx_script (tl (rx_script s)) s))) /\
  objq (on_object c obj) = objq c ++ [obj] /\
  obj_semaphore (on_object c obj) = S (obj_semaphore c).
Proof.
  intros Hread Hbuf Hpack Hlt Hget Hdec.
  destruct (run_once_extracts s data f tail channel payload xf0 Hread Hbuf Hpack)
    as (s1 & Hfeed & Hunpack).
  split; [|split; reflexivity].
  unfold run_once, bind. rewrite Hfeed, Hunpack.
  destruct (Z.ltb_spec channel 128) as [_|]; [|lia].
  cbn [channels set_buf set_rx_script]. rewrite Hget.
  replace (Z_of_byte xf0 =? 240) with true by reflexivity.
  rewrite Hdec. reflexivity.
Qed.

(** X18. A payload that does not decode. The exception of the decoder leaves
    the loop; the frame is gone from the buffer and the queue of the
    channel is as before. *)
Theorem run_once_undecodable_object (s : USBProtocol)
  (data f tail payload : bytes) (channel : Z) (c : Channel) :
  next_read (rx_script s) = Some data ->
  _buf s ++ data = f ++ tail ->
  pack_frame channel payload xf0 = Some f ->
  channel < 0x80 ->
  dict_get (channels s) (VInt channel) = Some c ->
  unpackb payload = None ->
  run_once s =
    (Err UnpackError, set_buf tail (set_rx_script (tl (rx_script s)) s)).
Proof.
  intros Hread Hbuf Hpack Hlt Hget Hdec.
  destruct (run_once_extracts s data f tail channel payload xf0 Hread Hbuf Hpack)
    as (s1 & Hfeed & Hunpack).
  unfold run_once, bind. rewrite Hfeed, Hunpack.
  destruct (Z.ltb_spec channel 128) as [_|]; [|lia].
  cbn [channels set_buf set_rx_script]. rewrite Hget.
  replace (Z_of_byte xf0 =? 240) with true by reflexivity.
  rewrite Hdec. reflexivity.
Qed.

(** X19. One frame per iteration, in order. Two object frames for one channel
    that arrive in a single read are delivered by two iterations, the
    first frame first: after the first iteration the second frame is still
    in the buffer, and the second iteration delivers it whatever its own
    read returns. *)
Theorem run_once_two_frames_in_order (s : USBProtocol)
  (data data2 f1 f2 tail p1 p2 : bytes) (channel : Z) (c : Channel)
  (o1 o2 : value) :
  next_read (rx_script s) = Some data ->
  next_read (tl (rx_script s)) = Some data2 ->
  _buf s ++ data = f1 ++ f2 ++ tail ->
  pack_frame channel p1 xf0 = Some f1 ->
  pack_frame channel p2 xf0 = Some f2 ->
  channel < 0x80 ->
  dict_get (channels s) (VInt channel) = Some c ->
  unpackb p1 = Some o1 ->
  unpackb p2 = Some o2 ->
  exists s1 s2 c2,
    run_once s = (Ok tt, s1) /\
    _buf s1 = f2 ++ tail /\
    dict_get (channels s1) (VInt channel) = Some (on_object c o1) /\
    run_once s1 = (Ok tt, s2) /\
    _buf s2 = tail ++ data2 /\
    dict_get (channels s2) (VInt channel) = Some c2 /\
    objq c2 = objq c ++ [o1; o2] /\
    obj_semaphore c2 = S (S (obj_semaphore c)) /\
    tx_log s2 = tx_log s.
Proof.
  intros Hr1 Hr2 Hbuf Hp1 Hp2 Hlt Hget Hd1 Hd2.
  destruct (run_once_object s data f1 (f2 ++ tail) p1 channel c o1
              Hr1 Hbuf Hp1 Hlt Hget Hd1) as [Hone _].
  set (s1 := set_channels (dict_set (channels s) (VInt channel) (on_object c o1))
               (set_buf (f2 ++ tail) (set_rx_script (tl (rx_script s)) s))) in *.
  assert (Hget1 : dict_get (channels s1) (VInt channel) = Some (on_object c o1))
    by apply dict_get_set_same.
  destruct (run_once_object s1 data2 f2 (tail ++ data2) p2 channel
              (on_object c o1) o2) as [Htwo _]; try assumption.
  { cbn [_buf s1 set_channels set_buf]. rewrite <- app_assoc. reflexivity. }
  eexists s1, _, _. split; [exact Hone|]. split; [reflexivity|].
  split; [exact Hget1|]. split; [exact Htwo|]. split; [reflexivity|].
  split; [cbn [channels set_channels]; apply dict_get_set_same|].
  split; [cbn [objq on_object]; rewrite <- app_assoc; reflexivity|].
  split; reflexivity.
Qed.

(** X20. Binary frames. An iteration that finds a binary frame for a
    registered channel first writes the acknowledgment 04 00 <channel> 80
    and then hands the block to the sink of the channel; without a sink
    the block is dropped, but it is acknowledged all the same. *)
Theorem run_once_binary (s : USBProtocol) (data f tail payload : bytes)
  (channel : Z) (c : Channel) :
  next_read (rx_script s) = Some data ->
  _buf s ++ data = f ++ tail ->
  pack_frame channel payload xff = Some f ->
  channel < 0x80 ->
  dict_get (channels s) (VInt channel) = Some c ->
  writes_accepted (tx_script s) ->
  exists cb s',
    Z_of_byte cb = channel /\
    run_once s = (Ok tt, s') /\
    tx_log s' = tx_log s ++ [[x04; x00; cb; x80]] /\
    _buf s' = tail /\
    dict_get (channels s') (VInt channel) = Some (on_binary c payload) /\
    (forall sink, binary_stream c = Some sink ->
                  binary_stream (on_binary c payload) = Some (sink ++ [payload])) /\
    (binary_stream c = None -> on_binary c payload = c).
Proof.
  intros Hread Hbuf Hpack Hlt Hget Hw.
  destruct (run_once_extracts s data f tail channel payload xff Hread Hbuf Hpack)
    as (s1 & Hfeed & Hunpack).
  destruct (pack_frame_Some_range _ _ _ _ Hpack) as [Hrange _].
  destruct (HEAD_PACKER_pack_total 4 channel) as [head Hhead]; [lia|lia|].
  destruct (HEAD_PACKER_pack_shape _ _ _ Hhead) as (lo & hi & cb & ->).
  pose proof (HEAD_PACKER_pack_Some _ _ _ _ _ Hhead) as [Hsize Hcb].
  assert (lo = x04 /\ hi = x00) as [-> ->].
  { unfold HEAD_PACKER_pack in Hhead. cbn in Hhead.
    destruct (byte_of_Z channel); [|discriminate]. injection Hhead as <- <- _.
    auto. }
  exists cb. eexists. split; [exact Hcb|].
  split; [|split; [|split; [|split; [|split]]]].
  - unfold run_once, bind. rewrite Hfeed, Hunpack.
    destruct (Z.ltb_spec channel 128) as [_|]; [|lia].
    cbn [channels set_buf set_rx_script]. rewrite Hget.
    replace (Z_of_byte xff =? 240) with false by reflexivity.
    replace (Z_of_byte xff =? 255) with true by reflexivity.
    unfold bind, _send_binary_ack. rewrite Hhead.
    rewrite _send_accepted_eq by exact Hw. reflexivity.
  - reflexivity.
  - reflexivity.
  - cbn [channels set_channels]. apply dict_get_set_same.
  - intros sink Hsink. unfold on_binary. rewrite Hsink. reflexivity.
  - intros Hnone. unfold on_binary. rewrite Hnone. reflexivity.
Qed.

(** X21. A binary frame whose acknowledgment cannot be written is lost: the
    error of the write leaves the loop, the frame is gone from the buffer
    and the block never reaches the channel. *)
Theorem run_once_binary_ack_fails (s : USBProtocol)
  (data f tail payload : bytes) (channel : Z) (c : Channel) (e : USBError)
  (rest : list (usb_result unit)) :
  next_read (rx_script s) = Some data ->
  _buf s ++ data = f ++ tail ->
  pack_frame channel payload xff = Some f ->
  channel < 0x80 ->
  dict_get (channels s) (VInt channel) = Some c ->
  tx_script s = usb_raise e :: rest ->
  exists err s',
    run_once s = (Err err, s') /\
    err = FluxUSBError (usb_args e)
            (if is_timeout e then [VStr "TIMEOUT"]
             else [VStr "UNKNOWN_ERROR"; errorcode_get (usb_errno e)]) /\
    _buf s' = tail /\
    channels s' = channels s /\
    tx_log s' = tx_log s.
Proof.
  intros Hread Hbuf Hpack Hlt Hget Htx.
  destruct (run_once_extracts s data f tail channel payload xff Hread Hbuf Hpack)
    as (s1 & Hfeed & Hunpack).
  destruct (pack_frame_Some_range _ _ _ _ Hpack) as [Hrange _].
  destruct (HEAD_PACKER_pack_total 4 channel) as [head Hhead]; [lia|lia|].
  eexists _, _. split; [|split; [reflexivity|]].
  - unfold run_once, bind. rewrite Hfeed, Hunpack.
    destruct (Z.ltb_spec channel 128) as [_|]; [|lia].
    cbn [channels set_buf set_rx_script]. rewrite Hget.
    replace (Z_of_byte xff =? 240) with false by reflexivity.
    replace (Z_of_byte xff =? 255) with true by reflexivity.
    unfold bind, _send_binary_ack. rewrite Hhead.
    unfold _send, tx_write. cbn [tx_script set_buf set_rx_script]. rewrite Htx.
    destruct (is_timeout e); reflexivity.
  - auto.
Qed.

(** X22. A close/ok response for an index that is not registered. The [pop] of
    the handler raises [KeyError]; it leaves the receive loop, which stops
    with [running] cleared. *)
Theorem stray_close_stops_the_loop (s : USBProtocol)
  (data f tail payload : bytes) (m : dict value) (fuel : nat) :
  next_read (rx_script s) = Some data ->
  _buf s ++ data = f ++ tail ->
  pack_frame 0xf1 payload xf0 = Some f ->
  unpackb payload = Some (VMap m) ->
  value_get m (VBytes (bytes_lit "action")) = VBytes (bytes_lit "close") ->
  value_get m (VBytes (bytes_lit "status")) = VBytes (bytes_lit "ok") ->
  hashable (value_get m (VBytes (bytes_lit "channel"))) = true ->
  dict_get (channels s) (value_get m (VBytes (bytes_lit "channel"))) = None ->
  run (S fuel) s =
    Some (Err KeyError,
          set_running false
            (set_buf tail (set_rx_script (tl (rx_script s)) (set_running true s)))).
Proof.
  intros Hread Hbuf Hpack Hdec Haction Hstatus Hhash Hget.
  destruct (run_once_extracts (set_running true s) data f tail 0xf1 payload xf0
              Hread Hbuf Hpack) as (s1 & Hfeed & Hunpack).
  unfold run. cbn [run_loop].
  replace (running (set_running true s)) with true by reflexivity.
  unfold run_once, bind. rewrite Hfeed, Hunpack.
  replace (241 <? 128) with false by reflexivity.
  replace (241 =? 241) with true by reflexivity.
  replace (negb (Z_of_byte xf0 =? 240)) with false by reflexivity.
  rewrite Hdec. unfold _on_channel_ctrl_response.
  rewrite Haction, Hstatus, Hhash.
  replace (value_eqb (VBytes (bytes_lit "close")) (VBytes (bytes_lit "open")))
    with false by reflexivity.
  rewrite !value_eqb_refl.
  cbn [channels set_buf set_rx_script set_running]. rewrite Hget. reflexivity.
Qed.

(** X23. A fatal read error stops the loop. When the read of an iteration
    raises a USB error other than a timeout, [run] ends with that error
    (its arguments, the default symbol) and [running] cleared; the buffer
    and the channels are untouched. *)
Theorem read_error_stops_the_loop (s : USBProtocol) (e : USBError)
  (rest : list (usb_result bytes)) (fuel : nat) :
  rx_script s = usb_raise e :: rest ->
  is_timeout e = false ->
  run (S fuel) s =
    Some (Err (FluxUSBError (usb_args e) [VStr "UNKNOWN_ERROR"]),
          set_running false (set_rx_script rest (set_running true s))).
Proof.
  intros Hrx Htimeout. unfold run. cbn [run_loop].
  replace (running (set_running true s)) with true by reflexivity.
  unfold run_once, bind, _feed_buffer, bind, _recv, rx_read.
  cbn [rx_script set_running]. rewrite Hrx, Htimeout. reflexivity.
Qed.

(** * Receive loop: what an iteration leaves alone *)

Lemma _send_keeps_session (buf : bytes) (s s' : USBProtocol) (r : result unit) :
  _send buf s = (r, s') ->
  running s' = running s /\ session s' = session s /\
  endpoint_profile s' = endpoint_profile s.
Proof.
  unfold _send, tx_write.
  destruct (tx_script s) as [|[u|e] rest];
    try destruct (is_timeout e); intros [= <- <-]; auto.
Qed.

Lemma _on_channel_ctrl_response_keeps_session (obj : value)
  (s s' : USBProtocol) (r : result unit) :
  _on_channel_ctrl_response obj s = (r, s') ->
  running s' = running s /\ session s' = session s /\
  endpoint_profile s' = endpoint_profile s.
Proof.
  unfold _on_channel_ctrl_response, bind, modify, raise, ret.
  destruct obj; try (intros [= <- <-]; auto).
  repeat match goal with
         | |- context [if ?c then _ else _] => destruct c
         | |- context [match dict_get ?d ?k with _ => _ end] =>
             destruct (dict_get d k)
         end;
    intros [= <- <-]; auto.
Qed.

Lemma _feed_buffer_keeps_session (s s1 : USBProtocol) (r : result unit) :
  _feed_buffer s = (r, s1) ->
  running s1 = running s /\ session s1 = session s /\
  endpoint_profile s1 = endpoint_profile s.
Proof.
  unfold _feed_buffer, bind, modify, _recv, rx_read.
  destruct (rx_script s) as [|[data|e] rest];
    repeat match goal with
           | |- context [if ?c then _ else _] => destruct c
           end;
    intros [= <- <-]; cbn; auto.
Qed.

(** An iteration of the receive loop never changes [running], the session
    or the endpoint profile. *)
Lemma run_once_keeps_session (s s' : USBProtocol) (r : result unit) :
  run_once s = (r, s') ->
  running s' = running s /\ session s' = session s /\
  endpoint_profile s' = endpoint_profile s.
Proof.
  unfold run_once, bind.
  destruct (_feed_buffer s) as [[[]|e] s1] eqn:Hfeed;
    pose proof (_feed_buffer_keeps_session _ _ _ Hfeed) as H1;
    [|intros [= <- <-]; exact H1].
  unfold _unpack_buffer.
  destruct (unpack_buffer (_buf s1)) as [d rest].
  set (s2 := set_buf rest s1).
  assert (H2 : running s2 = running s /\ session s2 = session s /\
               endpoint_profile s2 = endpoint_profile s) by exact H1.
  clearbody s2. clear H1 Hfeed.
  destruct d as [| |channel_idx buf fin]; try (intros [= <- <-]; exact H2).
  destruct (channel_idx <? 128).
  - destruct (dict_get (channels s2) (VInt channel_idx)) as [channel|];
      [|intros [= <- <-]; exact H2].
    destruct (fin =? 240).
    { destruct (unpackb buf); intros [= <- <-]; exact H2. }
    destruct (fin =? 255).
    { unfold bind, _send_binary_ack, update_channel, modify, raise.
      destruct (HEAD_PACKER_pack 4 channel_idx) as [head|];
        [|intros [= <- <-]; exact H2].
      destruct (_send (head ++ [x80]) s2) as [[u|e] s3] eqn:Hs;
        apply _send_keeps_session in Hs; intros [= <- <-];
        cbn [running session endpoint_profile set_channels];
        destruct Hs as (? & ? & ?); destruct H2 as (? & ? & ?);
        repeat split; congruence. }
    destruct (fin =? 192); intros [= <- <-]; exact H2.
  - destruct (channel_idx =? 241); [|intros [= <- <-]; exact H2].
    destruct (negb (fin =? 240)); [intros [= <- <-]; exact H2|].
    destruct (unpackb buf) as [obj|]; [|intros [= <- <-]; exact H2].
    intros H. apply _on_channel_ctrl_response_keeps_session in H.
    destruct H as (? & ? & ?); destruct H2 as (? & ? & ?).
    repeat split; congruence.
Qed.

Lemma run_loop_only_raises (fuel : nat) (s s' : USBProtocol) (r : result unit) :
  running s = true ->
  run_loop fuel s = Some (r, s') -> exists e, r = Err e.
Proof.
  revert s. induction fuel as [|fuel IH]; intros s Hrun; cbn [run_loop];
    [discriminate|].
  rewrite Hrun.
  destruct (run_once s) as [[u|e] s1] eqn:Hone.
  - apply IH. apply run_once_keeps_session in Hone as [H _]. congruence.
  - intros [= <- <-]. eauto.
Qed.

(** X24. The receive loop ends only by an exception. No iteration clears
    [running], so whenever [run] returns within a number of iterations it
    has raised, and [running] is cleared; it returns normally only after
    another thread has called [stop]. *)
Theorem run_ends_only_by_exception (fuel : nat) (s s' : USBProtocol)
  (r : result unit) :
  run fuel s = Some (r, s') ->
  (exists e, r = Err e) /\ running s' = false.
Proof.
  intros H. split.
  - unfold run in H. eapply run_loop_only_raises; [|exact H]. reflexivity.
  - unfold run in H. eapply run_loop_ends_stopped. exact H.
Qed.

(** * Channel methods *)

Lemma fold_on_object (objs : list value) (c : Channel) :
  objq (fold_left on_object objs c) = objq c ++ objs /\
  obj_semaphore (fold_left on_object objs c) =
    (obj_semaphore c + length objs)%nat.
Proof.
  revert c. induction objs as [|o objs IH]; intros c; cbn [fold_left].
  - rewrite app_nil_r. cbn [length]. split; [reflexivity|lia].
  - destruct (IH (on_object c o)) as [Hq Hs]. rewrite Hq, Hs.
    cbn [objq obj_semaphore on_object length]. rewrite <- app_assoc.
    split; [reflexivity|lia].
Qed.

(** X25. Objects come out in arrival order. On a channel with as many permits
    as queued objects, [get_object] returns the oldest object, counting
    those the receive loop appends during the wait, and leaves the others
    queued in order with the permits still matching; when there is none it
    raises [SystemError("TIMEOUT")] and the channel is as before. *)
Theorem get_object_fifo (c : Channel) (objs : list value) :
  queue_balanced c ->
  let arrived := fold_left on_object objs c in
  match objq c ++ objs with
  | [] =>
      Channel_get_object (fun c0 => fold_left on_object objs c0) c =
        (Failed (SystemError "TIMEOUT"), c)
  | obj :: q =>
      Channel_get_object (fun c0 => fold_left on_object objs c0) c =
        (Returned obj, set_objq (length q) q arrived) /\
      queue_balanced (set_objq (length q) q arrived)
  end.
Proof.
  intros Hbal. unfold queue_balanced in *. cbv zeta.
  destruct (fold_on_object objs c) as [Hq Hs].
  unfold Channel_get_object.
  set (arrived := fold_left on_object objs c) in *.
  destruct (objq c ++ objs) as [|obj q] eqn:Hall.
  - apply app_eq_nil in Hall as [Hc ->]. subst arrived. cbn [fold_left] in *.
    rewrite Hbal, Hc. reflexivity.
  - rewrite Hs, Hq, Hbal.
    replace (length (objq c) + length objs)%nat with (S (length q))
      by (rewrite <- length_app, Hall; reflexivity).
    cbn [sem_acquire]. split; reflexivity.
Qed.

(** X26. [close] sends at most one close request. The first call on an open
    channel marks it closed before it sends the request on channel 0xF0,
    so every later call does nothing, also when the request of the first
    one could not be written. *)
Theorem Channel_close_once (c : Channel) (s : USBProtocol) :
  let '(r, c1, s1) := Channel_close c s in
  opened c1 = false /\
  Channel_close c1 s1 = (Ok tt, c1, s1) /\
  (opened c = false -> r = Ok tt /\ c1 = c /\ s1 = s) /\
  (opened c = true ->
   (r, s1) = send_object 0xf0
               (VMap [(VStr "channel", index c); (VStr "action", VStr "close")])
               s).
Proof.
  unfold Channel_close. destruct (opened c) eqn:Hopen.
  - unfold _close_channel. cbn [index set_opened].
    destruct (send_object 240 _ s) as [r s1].
    cbn [opened set_opened].
    split; [reflexivity|]. split; [reflexivity|].
    split; [intros H; discriminate H | intros _; reflexivity].
  - rewrite Hopen.
    split; [reflexivity|]. split; [reflexivity|].
    split; [intros _; auto | intros H; discriminate H].
Qed.

(** X27. [send_binary] waits for the acknowledgment after the block is on the
    wire. Once the frame is written, the call returns when the receive
    loop releases the acknowledgment permit during the wait, and raises
    [SystemError("TIMEOUT")] when it does not; the block stays sent in
    both cases. *)
Theorem Channel_send_binary_waits (c : Channel) (buf : bytes) (i : Z)
  (s s1 : USBProtocol) :
  index_int (index c) = Some i ->
  send_binary i buf s = (Ok tt, s1) ->
  ack_semaphore c = 0%nat ->
  Channel_send_binary on_binary_ack c buf s = (Returned tt, c, s1) /\
  Channel_send_binary (fun c0 => c0) c buf s =
    (Failed (SystemError "TIMEOUT"), c, s1) /\
  exists lo hi cb,
    Z_of_byte cb = i /\
    tx_log s1 = tx_log s ++ [lo :: hi :: cb :: buf ++ [xbf]].
Proof.
  intros Hidx Hsend Hack. unfold Channel_send_binary.
  rewrite Hidx, Hsend. cbn [ack_semaphore on_binary_ack]. rewrite Hack.
  cbn [sem_acquire]. split; [|split; [reflexivity|]].
  - f_equal. f_equal. destruct c. cbn in *. subst. reflexivity.
  - unfold send_binary in Hsend.
    destruct (pack_frame i buf xbf) as [packed|] eqn:Hp; [|discriminate].
    apply _send_ok in Hsend as [Hlog _].
    destruct (pack_frame_Some _ _ _ _ Hp) as (lo & hi & cb & -> & _ & Hc).
    exists lo, hi, cb. auto.
Qed.

End Protocol.

(** * The theorems at concrete inputs *)

Lemma pack_unpack_roundtrip_witness :
  0 <= 7 <= 255 /\
  len [x01; x02] + 4 <= 65535 /\
  exists lo hi c,
    pack_frame 7 [x01; x02] xf0 = Some (lo :: hi :: c :: [x01; x02] ++ [xf0]) /\
    Z_of_byte lo = (len [x01; x02] + 4) mod 256 /\
    Z_of_byte hi = (len [x01; x02] + 4) / 256 /\
    Z_of_byte c = 7 /\
    unpack_buffer (lo :: hi :: c :: [x01; x02] ++ [xf0]) =
      (Frame 7 [x01; x02] (Z_of_byte xf0), []).
Proof.
  split; [lia|]. split; [vm_compute; discriminate|].
  apply (pack_unpack_roundtrip 7 [x01; x02] xf0); [lia | vm_compute; discriminate].
Defined.

Lemma zero_marker_drops_two_bytes_witness :
  Z_of_byte x00 + 256 * Z_of_byte x00 = 0 /\
  (1 <= length [x09])%nat /\
  unpack_buffer [x00; x00; x07; x09] = (ZeroMarker, [x07; x09]) /\
  length (snd (unpack_buffer [x00; x00; x07; x09])) =
    (length [x00; x00; x07; x09] - 2)%nat.
Proof.
  split; [reflexivity|]. split; [simpl; lia|].
  apply (zero_marker_drops_two_bytes x00 x00 x07 [x09]); [reflexivity | simpl; lia].
Defined.

Lemma partial_delivery_witness :
  pack_frame 7 [x01; x02] xf0 = Some [x06; x00; x07; x01; x02; xf0] /\
  (forall pre suf : bytes,
      [x06; x00; x07; x01; x02; xf0] = pre ++ suf -> suf <> [] ->
      unpack_buffer pre = (NeedMoreData, pre)) /\
  unpack_buffer [x06; x00; x07; x01; x02; xf0] =
    (Frame 7 [x01; x02] (Z_of_byte xf0), []) /\
  (forall b0 b1 b2 : byte,
      unpack_buffer [b0; b1; b2] = (NeedMoreData, [b0; b1; b2])).
Proof.
  split; [reflexivity|].
  apply (partial_delivery 7 [x01; x02] xf0 [x06; x00; x07; x01; x02; xf0]).
  reflexivity.
Defined.

Lemma undersized_frame_is_extracted_witness :
  2 = Z_of_byte x02 + 256 * Z_of_byte x00 /\
  1 <= 2 <= 3 /\
  (1 <= length [x09])%nat /\
  unpack_buffer [x02; x00; x07; x09] =
    (Frame (Z_of_byte x07) [] (byte_at [x02; x00; x07] (2 - 1)),
     skipn (Z.to_nat 2) [x02; x00; x07; x09]) /\
  (2 = 1 -> byte_at [x02; x00; x07] (2 - 1) = Z_of_byte x02) /\
  (2 = 2 -> byte_at [x02; x00; x07] (2 - 1) = Z_of_byte x00) /\
  (2 = 3 -> byte_at [x02; x00; x07] (2 - 1) = Z_of_byte x07).
Proof.
  split; [reflexivity|]. split; [lia|]. split; [simpl; lia|].
  apply (undersized_frame_is_extracted x02 x00 x07 [x09] 2);
    [reflexivity | lia | simpl; lia].
Defined.

Lemma emitted_terminators_witness :
  send_object 110 linux_errorcode packb_small 0xfc VNone (fresh [] []) =
    (Ok tt, set_tx [] [[x05; x00; xfc; xc0; xb0]] (fresh [] [])) /\
  exists lo hi c,
    tx_log (set_tx [] [[x05; x00; xfc; xc0; xb0]] (fresh [] [])) =
      tx_log (fresh [] []) ++ [lo :: hi :: c :: packb_small VNone ++ [xb0]] /\
    Z_of_byte lo + 256 * Z_of_byte hi = len (packb_small VNone) + 4 /\
    Z_of_byte c = 0xfc.
Proof.
  split; [reflexivity|].
  apply (proj1 (emitted_terminators 110 linux_errorcode packb_small
                  (fresh [] []) 0xfc) VNone).
  reflexivity.
Defined.

Lemma transport_errors_witness :
  let e := {| usb_args := [VInt 5; VStr "Input/output error"];
              usb_errno := Some 5 |} in
  tx_script (fresh [] [usb_raise e]) = [usb_raise e] /\
  _send 110 linux_errorcode [x00] (fresh [] [usb_raise e]) =
    (Err (FluxUSBError (usb_args e)
            (if is_timeout 110 e then [VStr "TIMEOUT"]
             else [VStr "UNKNOWN_ERROR";
                   errorcode_get linux_errorcode (usb_errno e)])),
     set_tx [] (tx_log (fresh [] [usb_raise e])) (fresh [] [usb_raise e])).
Proof.
  intros e. split; [reflexivity|].
  apply (proj1 (transport_errors 110 linux_errorcode
                  (fresh [] [usb_raise e]) e) [x00] []).
  reflexivity.
Defined.

Lemma open_channel_picks_highest_free_witness :
  exists i,
    open_channel_idx [(VInt 0, new_channel (VInt 0))] = Some i /\
    0 <= i <= 1 /\
    dict_get [(VInt 0, new_channel (VInt 0))] (VInt i) = None.
Proof.
  destruct (open_channel_picks_highest_free 110 linux_errorcode packb_small
              (set_channels [(VInt 0, new_channel (VInt 0))] (fresh [] []))
              "robot" (fun s => s))
    as (i & Hidx & Hi & Hfree & _).
  exists i. split; [exact Hidx|]. split; [exact Hi | exact Hfree].
Defined.

Lemma open_failure_releases_no_waiter_witness :
  let m := [(VBytes (bytes_lit "channel"), VInt 0);
            (VBytes (bytes_lit "status"), VBytes (bytes_lit "error"));
            (VBytes (bytes_lit "action"), VBytes (bytes_lit "open"))] in
  value_get m (VBytes (bytes_lit "action")) = VBytes (bytes_lit "open") /\
  value_get m (VBytes (bytes_lit "status")) <> VBytes (bytes_lit "ok") /\
  _on_channel_ctrl_response (VMap m) (fresh [] []) = (Ok tt, fresh [] []).
Proof.
  intros m.
  assert (Haction : value_get m (VBytes (bytes_lit "action"))
                    = VBytes (bytes_lit "open")) by reflexivity.
  assert (Hstatus : value_get m (VBytes (bytes_lit "status"))
                    <> VBytes (bytes_lit "ok")) by (vm_compute; discriminate).
  split; [exact Haction|]. split; [exact Hstatus|].
  exact (proj1 (open_failure_releases_no_waiter 110 linux_errorcode packb_small
                  m (fresh [] []) "robot" Haction Hstatus)).
Defined.

Lemma handshake_retry_exhaustion_witness :
  silent 110 (_buf (fresh [] [])) (rx_script (fresh [] [])) /\
  writes_accepted (tx_script (fresh [] [])) /\
  len (packb_small VNone) + 4 <= 65535 /\
  (6 <= 6)%nat /\
  exists lo hi s',
    let ping := lo :: hi :: xfc :: packb_small VNone ++ [xb0] in
    Z_of_byte lo + 256 * Z_of_byte hi = len (packb_small VNone) + 4 /\
    do_handshake 110 linux_errorcode packb_small unpackb_rejects "1.0" 6
      (fresh [] []) =
      Some (Err (FluxUSBError_msg "Handshake failed."), s') /\
    tx_log s' = tx_log (fresh [] []) ++ [ping; ping; ping; ping; ping].
Proof.
  assert (Hsilent : silent 110 (_buf (fresh [] [])) (rx_script (fresh [] [])))
    by (simpl; split; [reflexivity | exact I]).
  assert (Hwrites : writes_accepted (tx_script (fresh [] [])))
    by (simpl; constructor).
  assert (Hlen : len (packb_small VNone) + 4 <= 65535)
    by (vm_compute; discriminate).
  split; [exact Hsilent|]. split; [exact Hwrites|]. split; [exact Hlen|].
  split; [lia|].
  apply (handshake_retry_exhaustion 110 linux_errorcode packb_small
           unpackb_rejects "1.0" (fresh [] []) 6 Hsilent Hwrites Hlen).
  lia.
Defined.

Lemma run_once_outcomes_witness :
  let s := set_buf [x04; x00; x90; xf0] (fresh [] []) in
  _feed_buffer 110 s = (Ok tt, s) /\
  _unpack_buffer s = (Ok (Frame 0x90 [] 0xf0), fresh [] []) /\
  (is_protocol_error (fst (run_once 110 linux_errorcode unpackb_rejects s)) <->
   protocol_violation (channels s) (Frame 0x90 [] 0xf0)).
Proof.
  intros s.
  assert (Hfeed : _feed_buffer 110 s = (Ok tt, s)) by reflexivity.
  assert (Hunpack : _unpack_buffer s = (Ok (Frame 0x90 [] 0xf0), fresh [] []))
    by reflexivity.
  split; [exact Hfeed|]. split; [exact Hunpack|].
  exact (proj1 (run_once_outcomes 110 linux_errorcode unpackb_rejects
                  s s (fresh [] []) (Frame 0x90 [] 0xf0) Hfeed Hunpack)).
Defined.

(** * The code at the inputs where it departs from the description *)

(** C1. The frames of [send_object] and [send_binary] do not end with 0xF0
    and 0xFF: the object [None] on channel 0 goes out as 05 00 00 C0 B0 and
    the block 01 as 05 00 00 01 BF. *)
Lemma senders_do_not_emit_F0_FF :
  tx_log (snd (send_object 110 linux_errorcode packb_small 0 VNone (fresh [] [])))
    = [[x05; x00; x00; xc0; xb0]] /\
  last [x05; x00; x00; xc0; xb0] x00 <> xf0 /\
  tx_log (snd (send_binary 110 linux_errorcode 0 [x01] (fresh [] [])))
    = [[x05; x00; x00; x01; xbf]] /\
  last [x05; x00; x00; x01; xbf] x00 <> xff.
Proof.
  split; [reflexivity|]. split; [discriminate|].
  split; [reflexivity|discriminate].
Qed.

(** C2. [open_channel] is to request the lowest index that is not a key of
    the channel map. With the single channel 2 registered (channels 0, 1
    and 2 opened, then 0 and 1 closed) the lowest free index is 0, but the
    loop, which does not stop at the first free index, ends with 1 and the
    open request names 1. *)
Lemma open_channel_skips_lowest_free :
  let chs := [(VInt 2, new_channel (VInt 2))] in
  dict_get chs (VInt 0) = None /\
  open_channel_idx chs = Some 1 /\
  tx_log (snd (open_channel 110 linux_errorcode packb_small "robot"
                 (fun s => s) (set_channels chs (fresh [] []))))
    = [[x25; x00; xf0] ++
       packb_small (open_request (Some 1) "robot") ++ [xb0]].
Proof.
  intros chs. split; [reflexivity|]. split; reflexivity.
Qed.

(** C3. Handling an open response with a non-ok status does not release a
    waiter: on the response [{channel: 0, status: "error", action: "open"}]
    the handler registers no channel and leaves the open semaphore at
    zero. *)
Lemma open_failure_leaves_semaphore :
  let m := [(VBytes (bytes_lit "channel"), VInt 0);
            (VBytes (bytes_lit "status"), VBytes (bytes_lit "error"));
            (VBytes (bytes_lit "action"), VBytes (bytes_lit "open"))] in
  let s' := snd (_on_channel_ctrl_response (VMap m) (fresh [] [])) in
  chl_semaphore (fresh [] []) = 0%nat /\
  chl_semaphore s' = 0%nat /\
  chl_semaphore s' <> S (chl_semaphore (fresh [] [])) /\
  channels s' = [].
Proof.
  intros m s'. split; [reflexivity|]. split; [reflexivity|].
  split; [discriminate|reflexivity].
Qed.

(** C8. An empty read does not always end the iteration without dispatch
    and without error: with a whole frame on channel 0x90 left in the
    buffer by an earlier read, the read times out, returns [b""], and the
    iteration raises a protocol error. *)
Lemma empty_read_still_extracts :
  let s := set_buf [x04; x00; x90; xf0] (fresh [] []) in
  _recv 110 1024 50 s = (Ok [], s) /\
  run_once 110 linux_errorcode unpackb_rejects s =
    (Err (FluxUSBError_msg "Recv bad control channel 0x90"), fresh [] []).
Proof.
  intros s. split; reflexivity.
Qed.

(** C9. The read path does not give the platform error code: for the USB
    error EIO (errno 5) [_send] raises with the symbol
    [("UNKNOWN_ERROR", "EIO")], but [_recv] raises with the default symbol
    [("UNKNOWN_ERROR",)]. *)
Lemma recv_error_symbol_has_no_code :
  let e := {| usb_args := [VInt 5; VStr "Input/output error"];
              usb_errno := Some 5 |} in
  _recv 110 1024 50 (fresh [usb_raise e] []) =
    (Err (FluxUSBError [VInt 5; VStr "Input/output error"]
            [VStr "UNKNOWN_ERROR"]), fresh [] []) /\
  _send 110 linux_errorcode [x00] (fresh [] [usb_raise e]) =
    (Err (FluxUSBError [VInt 5; VStr "Input/output error"]
            [VStr "UNKNOWN_ERROR"; VStr "EIO"]), fresh [] []) /\
  [VStr "UNKNOWN_ERROR"] <> [VStr "UNKNOWN_ERROR"; VStr "EIO"].
Proof.
  intros e. split; [reflexivity|]. split; [reflexivity|discriminate].
Qed.

(** * The further properties at concrete inputs *)

Lemma unpack_pack_roundtrip_witness :
  unpack_buffer [x06; x00; x07; x01; x02; xf0; x09] =
    (Frame 7 [x01; x02] 240, [x09]) /\
  4 <= len [x06; x00; x07; x01; x02; xf0; x09] - len [x09] /\
  exists f packed,
    byte_of_Z 240 = Some f /\
    pack_frame 7 [x01; x02] f = Some packed /\
    [x06; x00; x07; x01; x02; xf0; x09] = packed ++ [x09].
Proof.
  split; [reflexivity|]. split; [vm_compute; discriminate|].
  apply (unpack_pack_roundtrip [x06; x00; x07; x01; x02; xf0; x09] [x09]
           [x01; x02] 7 240); [reflexivity | vm_compute; discriminate].
Defined.

Lemma unpack_buffer_drops_prefix_witness :
  unpack_buffer [x00; x00; x07; x09] = (ZeroMarker, [x07; x09]) /\
  exists consumed,
    [x00; x00; x07; x09] = consumed ++ [x07; x09] /\ length consumed = 2%nat.
Proof.
  split; [reflexivity|].
  apply (unpack_buffer_drops_prefix [x00; x00; x07; x09] [x07; x09] ZeroMarker).
  reflexivity.
Defined.

Lemma drain_keeps_last_frame_witness :
  let frames := [(1, [x0a], xf0); (2, [], xf0)] in
  let buf := [x05; x00; x01; x0a; xf0; x04; x00; x02; xf0] in
  let s := set_buf (buf ++ [x05]) (fresh [] []) in
  pack_frames frames = Some buf /\
  _buf s = buf ++ [x05] /\
  fst (unpack_buffer [x05]) = NeedMoreData /\
  (length frames < 3)%nat /\
  drain 3 None s = Some (Some (Frame 2 [] 240), set_buf [x05] s).
Proof.
  intros frames buf s.
  split; [reflexivity|]. split; [reflexivity|]. split; [reflexivity|].
  split; [simpl; lia|].
  apply (drain_keeps_last_frame frames buf [x05] None s 3);
    [reflexivity | reflexivity | reflexivity | simpl; lia].
Defined.

Lemma handshake_offer_witness :
  let offer := packb_small example_offer in
  let f := example_frame 0xff offer xf0 in
  let s := fresh [usb_ok f] [] in
  _buf s = [] /\
  rx_script s = [usb_ok f] /\
  pack_frame 0xff offer xf0 = Some f /\
  example_unpackb offer =
    Some (VMap [(VStr "session", VStr "S1"); (VStr "profile_key", VStr "v")]) /\
  writes_accepted (tx_script s) /\
  exists s',
    do_handshake_loop 110 linux_errorcode packb_small example_unpackb "1.0" 1 5 s
    = do_handshake_loop 110 linux_errorcode packb_small example_unpackb "1.0" 0 5 s'
    /\ session s' = VStr "S1"
    /\ endpoint_profile s' = Some [(VStr "profile_key", VStr "v")].
Proof.
  intros offer f s.
  assert (Hpack : pack_frame 0xff offer xf0 = Some f) by reflexivity.
  assert (Hdec : example_unpackb offer =
                 Some (VMap [(VStr "session", VStr "S1");
                             (VStr "profile_key", VStr "v")])) by reflexivity.
  assert (Hw : writes_accepted (tx_script s)) by (simpl; constructor).
  split; [reflexivity|]. split; [reflexivity|]. split; [exact Hpack|].
  split; [exact Hdec|]. split; [exact Hw|].
  destruct (handshake_offer 110 linux_errorcode packb_small example_unpackb "1.0"
              s f offer [] _ 0%nat 5 eq_refl eq_refl Hpack Hdec Hw)
    as (lo & hi & _ & Hloop); [vm_compute; discriminate | lia |].
  eexists. split; [exact Hloop|]. split; reflexivity.
Defined.

Lemma handshake_confirmed_witness :
  let confirm := packb_small (example_confirm "S1") in
  let f := example_frame 0xfd confirm xf0 in
  let s := set_session (VStr "S1") (fresh [usb_ok f] []) in
  _buf s = [] /\
  rx_script s = [usb_ok f] /\
  pack_frame 0xfd confirm xf0 = Some f /\
  session s <> VNone /\
  example_unpackb confirm = Some (VMap [(VStr "session", VStr "S1")]) /\
  dict_get [(VStr "session", VStr "S1")] (VStr "session") = Some (session s) /\
  do_handshake_loop 110 linux_errorcode packb_small example_unpackb "1.0" 1 5 s
  = Some (Ok true, set_buf [] (set_rx_script [] s)).
Proof.
  intros confirm f s.
  assert (Hpack : pack_frame 0xfd confirm xf0 = Some f) by reflexivity.
  assert (Hsess : session s <> VNone) by discriminate.
  assert (Hdec : example_unpackb confirm = Some (VMap [(VStr "session", VStr "S1")]))
    by reflexivity.
  split; [reflexivity|]. split; [reflexivity|]. split; [exact Hpack|].
  split; [exact Hsess|]. split; [exact Hdec|]. split; [reflexivity|].
  apply (handshake_confirmed 110 linux_errorcode packb_small example_unpackb "1.0"
           s f confirm [] _ 0%nat 5 eq_refl eq_refl Hpack Hsess Hdec eq_refl).
  lia.
Defined.


Lemma handshake_early_confirmation_witness :
  let confirm := [x01; x02; x03] in
  let f := example_frame 0xfd confirm xf0 in
  let s := fresh [usb_ok f] [] in
  _buf s = [] /\
  rx_script s = [usb_ok f] /\
  pack_frame 0xfd confirm xf0 = Some f /\
  session s = VNone /\
  writes_accepted (tx_script s) /\
  len (packb_small VNone) + 4 <= 65535 /\
  exists lo hi s',
    do_handshake_loop 110 linux_errorcode packb_small example_unpackb "1.0" 1 5 s
    = do_handshake_loop 110 linux_errorcode packb_small example_unpackb "1.0" 0 (5 - 1) s'
    /\ tx_log s' = [[lo; hi; xfc; xc0; xb0]].
Proof.
  intros confirm f s.
  assert (Hpack : pack_frame 0xfd confirm xf0 = Some f) by reflexivity.
  assert (Hw : writes_accepted (tx_script s)) by (simpl; constructor).
  assert (Hlen : len (packb_small VNone) + 4 <= 65535) by (vm_compute; discriminate).
  split; [reflexivity|]. split; [reflexivity|]. split; [exact Hpack|].
  split; [reflexivity|]. split; [exact Hw|]. split; [exact Hlen|].
  destruct (handshake_early_confirmation 110 linux_errorcode packb_small
              example_unpackb "1.0" s f confirm [] 0%nat 5
              eq_refl eq_refl Hpack eq_refl Hw Hlen)
    as (lo & hi & _ & Hloop); [lia|].
  exists lo, hi. eexists. split; [exact Hloop|reflexivity].
Defined.

Lemma handshake_established_witness :
  let offer := packb_small example_offer in
  let confirm := packb_small (example_confirm "S1") in
  let f1 := example_frame 0xff offer xf0 in
  let f2 := example_frame 0xfd confirm xf0 in
  let s := fresh [usb_ok f1; usb_ok f2] [] in
  let ack := VMap [(VStr "session", VStr "S1");
                   (VStr "client", VStr "fluxclient-1.0")] in
  _buf s = [] /\
  rx_script s = [usb_ok f1; usb_ok f2] /\
  pack_frame 0xff offer xf0 = Some f1 /\
  pack_frame 0xfd confirm xf0 = Some f2 /\
  example_unpackb offer = Some example_offer /\
  example_unpackb confirm = Some (example_confirm "S1") /\
  VStr "S1" <> VNone /\
  writes_accepted (tx_script s) /\
  len (packb_small ack) + 4 <= 65535 /\
  (2 <= 2)%nat /\
  exists lo hi s',
    do_handshake 110 linux_errorcode packb_small example_unpackb "1.0" 2 s
      = Some (Ok true, s') /\
    session s' = VStr "S1" /\
    endpoint_profile s' = Some [(VStr "profile_key", VStr "v")] /\
    tx_log s' = [lo :: hi :: xfe :: packb_small ack ++ [xb0]].
Proof.
  intros offer confirm f1 f2 s ack.
  assert (Hp1 : pack_frame 0xff offer xf0 = Some f1) by reflexivity.
  assert (Hp2 : pack_frame 0xfd confirm xf0 = Some f2) by reflexivity.
  assert (Hd1 : example_unpackb offer = Some example_offer) by reflexivity.
  assert (Hd2 : example_unpackb confirm = Some (example_confirm "S1"))
    by reflexivity.
  assert (Hne : VStr "S1" <> VNone) by discriminate.
  assert (Hw : writes_accepted (tx_script s)) by (simpl; constructor).
  assert (Hlen : len (packb_small ack) + 4 <= 65535) by (vm_compute; discriminate).
  split; [reflexivity|]. split; [reflexivity|]. split; [exact Hp1|].
  split; [exact Hp2|]. split; [exact Hd1|]. split; [exact Hd2|].
  split; [exact Hne|]. split; [exact Hw|]. split; [exact Hlen|]. split; [lia|].
  destruct (handshake_established 110 linux_errorcode packb_small example_unpackb
              "1.0" s f1 f2 offer confirm [] _ _ (VStr "S1") 2%nat
              eq_refl eq_refl Hp1 Hp2 Hd1 eq_refl Hne Hd2 eq_refl Hw Hlen)
    as (lo & hi & s' & Hres & Hsess & Hprof & Hlog & _); [lia|].
  exists lo, hi, s'. split; [exact Hres|]. split; [exact Hsess|].
  split; [exact Hprof | exact Hlog].
Defined.

Lemma handshake_zero_markers_cost_nothing_witness :
  let s := fresh [usb_ok [x00; x00; x00; x00]; usb_ok [x00; x00; x00; x00]] [] in
  (_buf s = [] \/ _buf s = [x00; x00]) /\
  rx_script s = repeat (usb_ok [x00; x00; x00; x00]) 2 ++ [] /\
  5 <> 0 /\
  exists s',
    do_handshake_loop 110 linux_errorcode packb_small example_unpackb "1.0"
      (2 + 1) 5 s
    = do_handshake_loop 110 linux_errorcode packb_small example_unpackb "1.0"
        1 5 s' /\
    rx_script s' = [] /\ tx_script s' = tx_script s /\
    tx_log s' = tx_log s /\ session s' = session s.
Proof.
  intros s.
  split; [left; reflexivity|]. split; [reflexivity|]. split; [lia|].
  apply (handshake_zero_markers_cost_nothing 110 linux_errorcode packb_small
           example_unpackb "1.0" 2 s [] 1 5);
    [left; reflexivity | reflexivity | lia].
Defined.



Lemma ctrl_response_ignored_witness :
  let m := example_response 0 "error" "close" in
  value_get m (VBytes (bytes_lit "action")) <> VBytes (bytes_lit "open") /\
  (value_get m (VBytes (bytes_lit "action")) = VBytes (bytes_lit "close") ->
   value_get m (VBytes (bytes_lit "status")) <> VBytes (bytes_lit "ok")) /\
  _on_channel_ctrl_response (VMap m) (fresh [] []) = (Ok tt, fresh [] []).
Proof.
  intros m.
  assert (H1 : value_get m (VBytes (bytes_lit "action"))
               <> VBytes (bytes_lit "open")) by (vm_compute; discriminate).
  assert (H2 : value_get m (VBytes (bytes_lit "action")) = VBytes (bytes_lit "close") ->
               value_get m (VBytes (bytes_lit "status")) <> VBytes (bytes_lit "ok"))
    by (intros _; vm_compute; discriminate).
  split; [exact H1|]. split; [exact H2|].
  exact (ctrl_response_ignored m (fresh [] []) H1 H2).
Defined.


Lemma open_channel_idx_contiguous_witness :
  let chs := [(VInt 0, new_channel (VInt 0)); (VInt 1, new_channel (VInt 1))] in
  (forall j, 0 <= j < len chs -> dict_get chs (VInt j) <> None) /\
  open_channel_idx chs = Some (len chs).
Proof.
  intros chs.
  assert (H : forall j, 0 <= j < len chs -> dict_get chs (VInt j) <> None).
  { intros j Hj. unfold len in Hj. simpl in Hj.
    assert (Hc : j = 0 \/ j = 1) by lia.
    destruct Hc as [-> | ->]; discriminate. }
  split; [exact H|]. apply (open_channel_idx_contiguous chs H).
Defined.

Lemma run_once_object_witness :
  let payload := packb_small (VStr "a") in
  let f := example_frame 0 payload xf0 in
  let c := new_channel (VInt 0) in
  let s := set_channels [(VInt 0, c)] (fresh [usb_ok f] []) in
  next_read 110 (rx_script s) = Some f /\
  _buf s ++ f = f ++ [] /\
  pack_frame 0 payload xf0 = Some f /\
  0 < 0x80 /\
  dict_get (channels s) (VInt 0) = Some c /\
  example_unpackb payload = Some (VStr "a") /\
  run_once 110 linux_errorcode example_unpackb s =
    (Ok tt,
     set_channels [(VInt 0, on_object c (VStr "a"))]
       (set_buf [] (set_rx_script [] s))).
Proof.
  intros payload f c s.
  assert (Hpack : pack_frame 0 payload xf0 = Some f) by reflexivity.
  assert (Hdec : example_unpackb payload = Some (VStr "a")) by reflexivity.
  split; [reflexivity|]. split; [reflexivity|]. split; [exact Hpack|].
  split; [lia|]. split; [reflexivity|]. split; [exact Hdec|].
  exact (proj1 (run_once_object 110 linux_errorcode example_unpackb s f f []
                  payload 0 c (VStr "a") eq_refl eq_refl Hpack ltac:(lia)
                  eq_refl Hdec)).
Defined.

Lemma run_once_undecodable_object_witness :
  let payload := [xc1] in
  let f := example_frame 0 payload xf0 in
  let c := new_channel (VInt 0) in
  let s := set_channels [(VInt 0, c)] (fresh [usb_ok f] []) in
  next_read 110 (rx_script s) = Some f /\
  _buf s ++ f = f ++ [] /\
  pack_frame 0 payload xf0 = Some f /\
  0 < 0x80 /\
  dict_get (channels s) (VInt 0) = Some c /\
  example_unpackb payload = None /\
  run_once 110 linux_errorcode example_unpackb s =
    (Err UnpackError, set_buf [] (set_rx_script [] s)).
Proof.
  intros payload f c s.
  assert (Hpack : pack_frame 0 payload xf0 = Some f) by reflexivity.
  assert (Hdec : example_unpackb payload = None) by reflexivity.
  split; [reflexivity|]. split; [reflexivity|]. split; [exact Hpack|].
  split; [lia|]. split; [reflexivity|]. split; [exact Hdec|].
  exact (run_once_undecodable_object 110 linux_errorcode example_unpackb s f f []
           payload 0 c eq_refl eq_refl Hpack ltac:(lia) eq_refl Hdec).
Defined.

Lemma run_once_two_frames_in_order_witness :
  let p1 := packb_small (VStr "a") in
  let p2 := packb_small (VStr "b") in
  let f1 := example_frame 0 p1 xf0 in
  let f2 := example_frame 0 p2 xf0 in
  let c := new_channel (VInt 0) in
  let s := set_channels [(VInt 0, c)] (fresh [usb_ok (f1 ++ f2)] []) in
  next_read 110 (rx_script s) = Some (f1 ++ f2) /\
  next_read 110 (tl (rx_script s)) = Some [] /\
  _buf s ++ (f1 ++ f2) = f1 ++ f2 ++ [] /\
  pack_frame 0 p1 xf0 = Some f1 /\
  pack_frame 0 p2 xf0 = Some f2 /\
  dict_get (channels s) (VInt 0) = Some c /\
  example_unpackb p1 = Some (VStr "a") /\
  example_unpackb p2 = Some (VStr "b") /\
  exists s1 s2 c2,
    run_once 110 linux_errorcode example_unpackb s = (Ok tt, s1) /\
    run_once 110 linux_errorcode example_unpackb s1 = (Ok tt, s2) /\
    dict_get (channels s2) (VInt 0) = Some c2 /\
    objq c2 = [VStr "a"; VStr "b"].
Proof.
  intros p1 p2 f1 f2 c s.
  assert (Hp1 : pack_frame 0 p1 xf0 = Some f1) by reflexivity.
  assert (Hp2 : pack_frame 0 p2 xf0 = Some f2) by reflexivity.
  assert (Hd1 : example_unpackb p1 = Some (VStr "a")) by reflexivity.
  assert (Hd2 : example_unpackb p2 = Some (VStr "b")) by reflexivity.
  split; [reflexivity|]. split; [reflexivity|]. split; [reflexivity|].
  split; [exact Hp1|]. split; [exact Hp2|]. split; [reflexivity|].
  split; [exact Hd1|]. split; [exact Hd2|].
  destruct (run_once_two_frames_in_order 110 linux_errorcode example_unpackb s
              (f1 ++ f2) [] f1 f2 [] p1 p2 0 c (VStr "a") (VStr "b")
              eq_refl eq_refl eq_refl Hp1 Hp2 ltac:(lia) eq_refl Hd1 Hd2)
    as (s1 & s2 & c2 & H1 & _ & _ & H2 & _ & Hget & Hq & _).
  exists s1, s2, c2. split; [exact H1|]. split; [exact H2|].
  split; [exact Hget | exact Hq].
Defined.

Lemma run_once_binary_witness :
  let f := example_frame 3 [x01; x02] xff in
  let c := new_channel (VInt 3) in
  let s := set_channels [(VInt 3, c)] (fresh [usb_ok f] []) in
  next_read 110 (rx_script s) = Some f /\
  _buf s ++ f = f ++ [] /\
  pack_frame 3 [x01; x02] xff = Some f /\
  3 < 0x80 /\
  dict_get (channels s) (VInt 3) = Some c /\
  writes_accepted (tx_script s) /\
  exists cb s',
    Z_of_byte cb = 3 /\
    run_once 110 linux_errorcode example_unpackb s = (Ok tt, s') /\
    tx_log s' = tx_log s ++ [[x04; x00; cb; x80]] /\
    dict_get (channels s') (VInt 3) = Some c.
Proof.
  intros f c s.
  assert (Hpack : pack_frame 3 [x01; x02] xff = Some f) by reflexivity.
  assert (Hw : writes_accepted (tx_script s)) by (simpl; constructor).
  split; [reflexivity|]. split; [reflexivity|]. split; [exact Hpack|].
  split; [lia|]. split; [reflexivity|]. split; [exact Hw|].
  destruct (run_once_binary 110 linux_errorcode example_unpackb s f f []
              [x01; x02] 3 c eq_refl eq_refl Hpack ltac:(lia) eq_refl Hw)
    as (cb & s' & Hcb & Hrun & Hlog & _ & Hget & _ & Hnone).
  exists cb, s'. split; [exact Hcb|]. split; [exact Hrun|].
  split; [exact Hlog|]. rewrite Hget, (Hnone eq_refl). reflexivity.
Defined.

Lemma run_once_binary_ack_fails_witness :
  let f := example_frame 3 [x01; x02] xff in
  let c := new_channel (VInt 3) in
  let e := {| usb_args := [VInt 5; VStr "Input/output error"];
              usb_errno := Some 5 |} in
  let s := set_channels [(VInt 3, c)] (fresh [usb_ok f] [usb_raise e]) in
  next_read 110 (rx_script s) = Some f /\
  _buf s ++ f = f ++ [] /\
  pack_frame 3 [x01; x02] xff = Some f /\
  3 < 0x80 /\
  dict_get (channels s) (VInt 3) = Some c /\
  tx_script s = [usb_raise e] /\
  exists s',
    run_once 110 linux_errorcode example_unpackb s =
      (Err (FluxUSBError [VInt 5; VStr "Input/output error"]
              [VStr "UNKNOWN_ERROR"; VStr "EIO"]), s') /\
    _buf s' = [] /\ channels s' = channels s /\ tx_log s' = tx_log s.
Proof.
  intros f c e s.
  assert (Hpack : pack_frame 3 [x01; x02] xff = Some f) by reflexivity.
  split; [reflexivity|]. split; [reflexivity|]. split; [exact Hpack|].
  split; [lia|]. split; [reflexivity|]. split; [reflexivity|].
  destruct (run_once_binary_ack_fails 110 linux_errorcode example_unpackb s f f []
              [x01; x02] 3 c e [] eq_refl eq_refl Hpack ltac:(lia) eq_refl eq_refl)
    as (err & s' & Hrun & -> & Hrest).
  exists s'. split; [exact Hrun | exact Hrest].
Defined.

Lemma stray_close_stops_the_loop_witness :
  let m := example_response 0 "ok" "close" in
  let payload := packb_small (VMap m) in
  let f := example_frame 0xf1 payload xf0 in
  let s := fresh [usb_ok f] [] in
  next_read 110 (rx_script s) = Some f /\
  _buf s ++ f = f ++ [] /\
  pack_frame 0xf1 payload xf0 = Some f /\
  example_unpackb payload = Some (VMap m) /\
  value_get m (VBytes (bytes_lit "action")) = VBytes (bytes_lit "close") /\
  value_get m (VBytes (bytes_lit "status")) = VBytes (bytes_lit "ok") /\
  hashable (value_get m (VBytes (bytes_lit "channel"))) = true /\
  dict_get (channels s) (value_get m (VBytes (bytes_lit "channel"))) = None /\
  run 110 linux_errorcode example_unpackb 1 s =
    Some (Err KeyError,
          set_running false
            (set_buf [] (set_rx_script [] (set_running true s)))).
Proof.
  intros m payload f s.
  assert (Hpack : pack_frame 0xf1 payload xf0 = Some f) by reflexivity.
  assert (Hdec : example_unpackb payload = Some (VMap m)) by reflexivity.
  split; [reflexivity|]. split; [reflexivity|]. split; [exact Hpack|].
  split; [exact Hdec|]. split; [reflexivity|]. split; [reflexivity|].
  split; [reflexivity|]. split; [reflexivity|].
  exact (stray_close_stops_the_loop 110 linux_errorcode example_unpackb s f f []
           payload m 0 eq_refl eq_refl Hpack Hdec eq_refl eq_refl eq_refl eq_refl).
Defined.

Lemma read_error_stops_the_loop_witness :
  let e := {| usb_args := [VInt 5; VStr "Input/output error"];
              usb_errno := Some 5 |} in
  let s := fresh [usb_raise e] [] in
  rx_script s = [usb_raise e] /\
  is_timeout 110 e = false /\
  run 110 linux_errorcode example_unpackb 1 s =
    Some (Err (FluxUSBError (usb_args e) [VStr "UNKNOWN_ERROR"]),
          set_running false (set_rx_script [] (set_running true s))).
Proof.
  intros e s. split; [reflexivity|]. split; [reflexivity|].
  exact (read_error_stops_the_loop 110 linux_errorcode example_unpackb s e [] 0
           eq_refl eq_refl).
Defined.

Lemma run_ends_only_by_exception_witness :
  let s := set_buf [x00; x00; x00; x00] (fresh [] []) in
  let s' := set_running false (set_buf [x00; x00] (set_running true s)) in
  run 110 linux_errorcode example_unpackb 3 s =
    Some (Err (FluxUSBError_msg "USB protocol broken"), s') /\
  (exists e, Err (FluxUSBError_msg "USB protocol broken") = @Err unit e) /\
  running s' = false.
Proof.
  intros s s'.
  assert (H : run 110 linux_errorcode example_unpackb 3 s =
              Some (Err (FluxUSBError_msg "USB protocol broken"), s'))
    by reflexivity.
  split; [exact H|].
  exact (run_ends_only_by_exception 110 linux_errorcode example_unpackb 3 s s' _ H).
Defined.

Lemma get_object_fifo_witness :
  let c := on_object (new_channel (VInt 0)) (VStr "a") in
  queue_balanced c /\
  Channel_get_object (fun c0 => fold_left on_object [VStr "b"] c0) c =
    (Returned (VStr "a"),
     set_objq 1 [VStr "b"] (fold_left on_object [VStr "b"] c)) /\
  queue_balanced (set_objq 1 [VStr "b"] (fold_left on_object [VStr "b"] c)).
Proof.
  intros c.
  assert (Hbal : queue_balanced c) by reflexivity.
  split; [exact Hbal|].
  exact (get_object_fifo c [VStr "b"] Hbal).
Defined.

Lemma Channel_send_binary_waits_witness :
  let c := new_channel (VInt 3) in
  let s := fresh [] [] in
  let s1 := set_tx [] [[x06; x00; x03; x01; x02; xbf]] s in
  index_int (index c) = Some 3 /\
  send_binary 110 linux_errorcode 3 [x01; x02] s = (Ok tt, s1) /\
  ack_semaphore c = 0%nat /\
  Channel_send_binary 110 linux_errorcode on_binary_ack c [x01; x02] s
    = (Returned tt, c, s1) /\
  Channel_send_binary 110 linux_errorcode (fun c0 => c0) c [x01; x02] s
    = (Failed (SystemError "TIMEOUT"), c, s1).
Proof.
  intros c s s1.
  assert (Hsend : send_binary 110 linux_errorcode 3 [x01; x02] s = (Ok tt, s1))
    by reflexivity.
  split; [reflexivity|]. split; [exact Hsend|]. split; [reflexivity|].
  destruct (Channel_send_binary_waits 110 linux_errorcode c [x01; x02] 3 s s1
              eq_refl Hsend eq_refl) as (H1 & H2 & _).
  split; [exact H1 | exact H2].
Defined.
